(** * Calendar visualization: date binning

    A shallow embedding of the computational part of
    [frontend/src/metabase/visualizations/visualizations/Calendar.jsx]:
    the pre-flight check [checkRenderable] and, from [render], the value
    range, the date range, the per-date aggregation, the histogram and the
    bin assignment handed to the calendar widget.

    Conventions.
    - A JavaScript number that carries a metric is an exact rational ([Q]);
      rounding of IEEE doubles is not modelled, and "equal numbers" is [Qeq].
    - A row is seen through the two cells [render] reads,
      [row[dimensionIndex]] and [row[metricIndex]].
    - A dimension cell is a number (epoch milliseconds) or a string (an ISO
      date); the relational operators follow ECMAScript: two strings are
      compared as strings, anything else after conversion to a number, and a
      comparison with NaN is false.
    - An object used as a map whose entries are later enumerated ([dates]) is
      an association list in insertion order with unique keys; an object only
      read by key ([bins]) is a [gmap].
    - [d3.layout.histogram], [d3.bisect] and [d3.ascending] belong to the d3
      (version 3) library the component imports; module [d3] transcribes them.
    - [moment(v)] wraps its input; its [toString] and ECMAScript's string to
      number conversion are parameters of the development. *)

From Stdlib Require Import QArith Lqa ZArith Lia List String.
From stdpp Require Import base option list gmap strings.

Local Open Scope string_scope.
Local Open Scope list_scope.

(** ** JavaScript values and operators *)

Module Js.

(** A dimension cell. *)
Inductive value : Type :=
| Num (n : Z)
| Str (s : string).

(** [a < b] on rationals, as a boolean. *)
Definition Qltb (a b : Q) : bool := negb (Qle_bool b a).

(** [a > b] on rationals, as a boolean. *)
Definition Qgtb (a b : Q) : bool := Qltb b a.

Section Relational.
(** ECMAScript ToNumber on strings; [None] stands for NaN. *)
Variable ToNumber : string -> option Q.

Definition to_number (v : value) : option Q :=
  match v with
  | Num n => Some (inject_Z n)
  | Str s => ToNumber s
  end.

(** The operator [a < b]. *)
Definition lt (a b : value) : bool :=
  match a, b with
  | Str s, Str t => String.ltb s t
  | _, _ =>
      match to_number a, to_number b with
      | Some x, Some y => Qltb x y
      | _, _ => false
      end
  end.

(** The operator [a > b]. *)
Definition gt (a b : value) : bool := lt b a.
End Relational.

(** [Math.max(a, b)], [Math.min(a, b)] and [Math.abs(x)] on rationals. *)
Definition Math_max (a b : Q) : Q := if Qltb a b then b else a.
Definition Math_min (a b : Q) : Q := if Qltb b a then b else a.
Definition Math_abs (x : Q) : Q := if Qltb x 0 then (- x)%Q else x.

(** An object whose own keys are enumerated in insertion order. *)
Definition object (V : Type) : Type := list (string * V).

Section Object.
Context {V : Type}.

(** [k in o].  The keys every object inherits from its prototype
    ([constructor], [toString] and the like) are left out: no formatted
    date is one of them. *)
Fixpoint has (k : string) (o : object V) : bool :=
  match o with
  | [] => false
  | (k', _) :: o' => if String.eqb k k' then true else has k o'
  end.

(** [o[k]]; [None] stands for undefined. *)
Fixpoint get (k : string) (o : object V) : option V :=
  match o with
  | [] => None
  | (k', v) :: o' => if String.eqb k k' then Some v else get k o'
  end.

(** [o[k] = v]: an existing key keeps its place, a new one goes last. *)
Fixpoint set (k : string) (v : V) (o : object V) : object V :=
  match o with
  | [] => [(k, v)]
  | (k', v') :: o' =>
      if String.eqb k k' then (k, v) :: o' else (k', v') :: set k v o'
  end.

(** [Object.entries(o)]: the own keys in insertion order (a formatted date
    is not an array index, which would come first). *)
Definition entries (o : object V) : list (string * V) := o.
End Object.

End Js.

(** ** The d3 (v3) functions used by the component *)

Module d3.

(** [d3.ascending(a, b)]: [a < b ? -1 : a > b ? 1 : a >= b ? 0 : NaN];
    on rationals the last alternative is never taken. *)
Definition ascending (a b : Q) : Z :=
  if Js.Qltb a b then (-1)%Z else if Js.Qltb b a then 1%Z else 0%Z.

(** The loop of [d3.bisectRight]:
    [while (lo < hi) { mid = lo + hi >>> 1;
       if (compare(a[mid], x) > 0) hi = mid; else lo = mid + 1; }
     return lo;]
    [None] when the fuel runs out before the loop exits. *)
Fixpoint bisect_loop (fuel : nat) (a : list Q) (x : Q) (lo hi : nat)
  : option nat :=
  if (lo <? hi)%nat then
    match fuel with
    | O => None
    | S fuel' =>
        let mid := Nat.div2 (lo + hi) in
        if (0 <? ascending (nth mid a 0%Q) x)%Z
        then bisect_loop fuel' a x lo mid
        else bisect_loop fuel' a x (mid + 1) hi
    end
  else Some lo.

(** [d3.bisect(a, x, lo, hi)]; the interval halves at every turn, so its
    length bounds the number of turns. *)
Definition bisect (a : list Q) (x : Q) (lo hi : nat) : option nat :=
  bisect_loop (hi - lo) a x lo hi.

(** [d3_layout_histogramBinFixed(range, n)]:
    [b = +range[0], m = (range[1] - b) / n;
     while (++x <= n) f[x] = m * x + b;] *)
Definition layout_histogramBinFixed (range : Q * Q) (n : nat) : list Q :=
  let b := fst range in
  let m := ((snd range - b) / inject_Z (Z.of_nat n))%Q in
  List.map (fun x => (m * inject_Z (Z.of_nat x) + b)%Q) (seq 0 (S n)).

Section Histogram.
Context {A : Type}.
(** [histogram.value(f)] *)
Variable valuer : A -> Q.
(** [histogram.range([lo, hi])] *)
Variable range : Q * Q.

(** The second loop of [histogram]: values outside the range are
    ignored, the others are pushed on
    [bins[d3.bisect(thresholds, x, 1, m) - 1]].  [None] when the bisection
    does not return or the bin does not exist (a TypeError in the
    library). *)
Fixpoint fill (thresholds : list Q) (m : nat) (data : list A)
  (bins : list (list A)) : option (list (list A)) :=
  match data with
  | [] => Some bins
  | d :: data' =>
      let x := valuer d in
      if Qle_bool (fst range) x && Qle_bool x (snd range) then
        match bisect thresholds x 1 m with
        | Some r =>
            match bins !! (r - 1)%nat with
            | Some bin =>
                fill thresholds m data' (<[(r - 1)%nat := bin ++ [d]]> bins)
            | None => None
            end
        | None => None
        end
      else fill thresholds m data' bins
  end.

(** [d3.layout.histogram().value(valuer).range(range).bins(n)(data)] *)
Definition layout_histogram (n : nat) (data : list A)
  : option (list (list A)) :=
  let thresholds := layout_histogramBinFixed range n in
  let m := (length thresholds - 1)%nat in
  let bins := replicate m [] in
  if (0 <? m)%nat then fill thresholds m data bins else Some bins.
End Histogram.

End d3.

(** ** The underscore function used by the component *)

Module underscore.

(** The loop of [_.findIndex(array, predicate)], at [index] with [array]
    the elements from [index] on:
    [for (; index >= 0 && index < length; index += 1)
       if (predicate(array[index], index, array)) return index;
     return -1;] *)
Fixpoint findIndex_from {A : Type} (predicate : A -> bool) (array : list A)
  (index : Z) : Z :=
  match array with
  | [] => (-1)%Z
  | x :: rest =>
      if predicate x then index
      else findIndex_from predicate rest (index + 1)%Z
  end.

Definition findIndex {A : Type} (array : list A) (predicate : A -> bool) : Z :=
  findIndex_from predicate array 0%Z.

End underscore.

(** ** The component *)

Module Calendar.

(** [metabase/visualizations/lib/errors]: the two errors the component
    throws, with the arguments of their constructors. *)
Inductive RenderError : Type :=
| MinRowsError (minRows actualRows : nat)
| ChartSettingsError (message section : string).

(** The settings the component reads.  A column setting is absent or the
    name of a column. *)
Record Settings : Type := mkSettings {
  calendar_dimension : option string;
  calendar_metric : option string;
  calendar_from_start_not_end : bool
}.

(** The two cells of a row the component reads. *)
Record Row : Type := mkRow {
  dimensionValue : Js.value;
  metricValue : Q
}.

(** [!s] on a column setting: undefined and the empty string are falsy. *)
Definition not_ (s : option string) : bool :=
  match s with
  | None => true
  | Some name => String.eqb name ""
  end.

(** [checkRenderable]; [None] when nothing is thrown.  The message is the
    text before translation. *)
Definition checkRenderable (rows : list Row) (settings : Settings)
  : option RenderError :=
  if (length rows <? 1)%nat then Some (MinRowsError 1 0)
  else if not_ (calendar_dimension settings)
          || not_ (calendar_metric settings)
  then Some (ChartSettingsError "Which columns do you want to use?" "Data")
  else None.

(** [moment(v)] keeps its input. *)
Record Moment : Type := moment { input : Js.value }.

(** [rows.reduce((max, row) => max > row[metricIndex] ? max : row[metricIndex], 0)] *)
Definition max (rows : list Row) : Q :=
  fold_left
    (fun max row =>
       if Js.Qgtb max (metricValue row) then max else metricValue row)
    rows 0%Q.

(** [rows.reduce((min, row) => min < row[metricIndex] ? min : row[metricIndex], 0)] *)
Definition min (rows : list Row) : Q :=
  fold_left
    (fun min row =>
       if Js.Qltb min (metricValue row) then min else metricValue row)
    rows 0%Q.

Section Render.
Variable ToNumber : string -> option Q.
(** [m.toString()] of a moment. *)
Variable toString : Moment -> string.

(** [rows.reduce((max, row) => max > row[dimensionIndex] ? max : row[dimensionIndex], 0)] *)
Definition maxDate (rows : list Row) : Js.value :=
  fold_left
    (fun max row =>
       if Js.gt ToNumber max (dimensionValue row) then max
       else dimensionValue row)
    rows (Js.Num 0).

(** [rows.reduce((min, row) => min < row[dimensionIndex] ? min : row[dimensionIndex], 0)] *)
Definition minDate (rows : list Row) : Js.value :=
  fold_left
    (fun min row =>
       if Js.lt ToNumber min (dimensionValue row) then min
       else dimensionValue row)
    rows (Js.Num 0).

(** The body of the reducer that builds [dates]:
    [if (!(date in dates)) dates[date] = 0; dates[date] += row[metricIndex];]
    The read of [dates[date]] always finds the key, which was set just
    before when it was absent. *)
Definition dates_step (dates : Js.object Q) (row : Row) : Js.object Q :=
  let date := toString (moment (dimensionValue row)) in
  let dates := if Js.has date dates then dates else Js.set date 0%Q dates in
  match Js.get date dates with
  | Some total => Js.set date (total + metricValue row)%Q dates
  | None => dates
  end.

(** [rows.reduce((dates, row) => { ...; return dates }, {})] *)
Definition dates (rows : list Row) : Js.object Q :=
  fold_left dates_step rows [].

(** [d3.layout.histogram().value(entry => entry[1]).range([min, max]).bins(10)(Object.entries(dates))] *)
Definition binsh (rows : list Row) : option (list (list (string * Q))) :=
  d3.layout_histogram snd (min rows, max rows) 10 (Js.entries (dates rows)).

(** [bin.forEach(entry => { bins[entry[0]] = ix })] *)
Definition assign_bin (bins : gmap string nat) (bin : list (string * Q))
  (ix : nat) : gmap string nat :=
  fold_left (fun bins entry => <[fst entry := ix]> bins) bin bins.

(** [binsh.reduce((bins, bin, ix) => ..., init)], from index [ix] on. *)
Fixpoint reduce_bins (binsh : list (list (string * Q))) (ix : nat)
  (bins : gmap string nat) : gmap string nat :=
  match binsh with
  | [] => bins
  | bin :: rest => reduce_bins rest (S ix) (assign_bin bins bin ix)
  end.

(** The [bins] handed to the widget. *)
Definition bins (rows : list Row) : option (gmap string nat) :=
  match binsh rows with
  | Some binsh => Some (reduce_bins binsh 0 ∅)
  | None => None
  end.

(** The [initial] date handed to the widget. *)
Definition initial (settings : Settings) (rows : list Row) : Moment :=
  if calendar_from_start_not_end settings
  then moment (minDate rows)
  else moment (maxDate rows).
End Render.

(** *** Derived settings *)

(** A column of the result, seen through its name. *)
Record Col : Type := mkCol { name : string }.

(** [col.name === setting]: a name is never equal to an absent setting. *)
Definition name_is (col : Col) (setting : option string) : bool :=
  match setting with
  | Some s => String.eqb (name col) s
  | None => false
  end.

(** [_.findIndex(cols, col => col.name === settings["calendar.metric"])] *)
Definition _metricIndex (cols : list Col) (settings : Settings) : Z :=
  underscore.findIndex cols (fun col => name_is col (calendar_metric settings)).

(** [_.findIndex(cols, col => col.name === settings["calendar.dimension"])] *)
Definition _dimensionIndex (cols : list Col) (settings : Settings) : Z :=
  underscore.findIndex cols
    (fun col => name_is col (calendar_dimension settings)).

Section DimensionValues.
(** The cells of a raw row, and [String(v)] on a cell or on undefined
    ([None], the read of a missing cell). *)
Variable Cell : Type.
Variable String_ : option Cell -> string.

(** [dimensionIndex >= 0 ? rows.map(row => String(row[dimensionIndex])) : null],
    with [dimensionIndex] the value of [calendar._dimensionIndex]. *)
Definition _dimensionValues (rows : list (list Cell)) (dimensionIndex : Z)
  : option (list string) :=
  if (0 <=? dimensionIndex)%Z
  then Some (List.map (fun row => String_ (row !! Z.to_nat dimensionIndex)) rows)
  else None.
End DimensionValues.

(** *** Sizes *)

Definition OUTER_RADIUS : Q := 45.
Definition INNER_RADIUS_RATIO : Q := (37 # 10) / 5.
Definition INNER_RADIUS : Q := OUTER_RADIUS * INNER_RADIUS_RATIO.
Definition FONT_SIZE_CENTER_LABEL_MIN : Q := 5 # 10.
Definition FONT_SIZE_CENTER_LABEL_MAX : Q := 7 # 10.

(** The [desiredFontSize] of [_updateLabelSize], from the measured width
    of the label and its font size in ems.  A width of 0, for which the
    quotient is infinite, is outside the model. *)
Definition desiredFontSize (currentWidth currentFontSize : Q) : Q :=
  let maxWidth := (INNER_RADIUS * 2 * (95 # 100))%Q in
  Js.Math_max FONT_SIZE_CENTER_LABEL_MIN
    (Js.Math_min FONT_SIZE_CENTER_LABEL_MAX
       (currentFontSize * (maxWidth / currentWidth))%Q).

(** [_updateLabelSize] on a label that exists: the font size of the label
    afterwards.
    [if (Math.abs(1 - currentFontSize / desiredFontSize) > 0.05)
       label.style.fontSize = desiredFontSize + "em";] *)
Definition _updateLabelSize (currentWidth currentFontSize : Q) : Q :=
  let desiredFontSize := desiredFontSize currentWidth currentFontSize in
  if Js.Qgtb (Js.Math_abs (1 - currentFontSize / desiredFontSize)%Q) (5 # 100)
  then desiredFontSize
  else currentFontSize.

Section Svg.
(** [Math.sin(radians(ARC_DEGREES / 2))] *)
Variable sinHalfArc : Q.






End Svg.

End Calendar.

(** ** Vocabulary of the statements *)


(** The sum of the metric cells of the rows. *)
Definition metric_sum (rows : list Calendar.Row) : Q :=
  fold_right (fun row s => (Calendar.metricValue row + s)%Q) 0%Q rows.

(** The thresholds of the ten bins of [render]: [threshold rows j] is the
    lower bound of bin [j] and the upper bound of bin [j - 1]. *)
Definition thresholds (rows : list Calendar.Row) : list Q :=
  d3.layout_histogramBinFixed (Calendar.min rows, Calendar.max rows) 10.

Definition threshold (rows : list Calendar.Row) (j : nat) : Q :=
  nth j (thresholds rows) 0%Q.

(** Entry [e] sits in bin [i] of a histogram. *)
Definition in_bin {A : Type} (bs : list (list A)) (i : nat) (e : A) : Prop :=
  exists b, bs !! i = Some b /\ e ∈ b.

(** The result [r] of a bisection of [a] at [x] between [lo] and [hi]
    splits the interval: at most [x] before [r], more than [x] from [r] on. *)
Definition splits (a : list Q) (x : Q) (lo hi r : nat) : Prop :=
  (lo <= r <= hi)%nat
  /\ (forall j, (lo <= j < r)%nat -> (nth j a 0 <= x)%Q)
  /\ (forall j, (r <= j < hi)%nat -> (x < nth j a 0)%Q).

(** A column setting is missing when [!] reads it as true. *)
Definition missing (s : option string) : Prop := Calendar.not_ s = true.

(** The key under which [render] files a row. *)
Definition key_of (toString : Calendar.Moment -> string) (row : Calendar.Row)
  : string :=
  toString (Calendar.moment (Calendar.dimensionValue row)).

(** The rows filed under key [k]. *)
Definition rows_of_key (toString : Calendar.Moment -> string) (k : string)
  (rows : list Calendar.Row) : list Calendar.Row :=
  List.filter (fun row => String.eqb (key_of toString row) k) rows.

(** The elements of a list in the order of their first occurrence. *)
Fixpoint first_occurrences (l : list string) : list string :=
  match l with
  | [] => []
  | x :: l' =>
      x :: List.filter (fun y => negb (String.eqb y x)) (first_occurrences l')
  end.

(** The total of an aggregated entry lies in the range of the histogram. *)
Definition in_range (rows : list Calendar.Row) (entry : string * Q) : bool :=
  Qle_bool (Calendar.min rows) (snd entry)
  && Qle_bool (snd entry) (Calendar.max rows).

(** The dimension cell of a row is a string that is not a number: an ISO
    date, say. *)
Definition date_string (ToNumber : string -> option Q) (row : Calendar.Row)
  : Prop :=
  exists s, Calendar.dimensionValue row = Js.Str s /\ ToNumber s = None.

(** The dimension cell of a row is a number: epoch milliseconds, say. *)
Definition timestamp (row : Calendar.Row) : Prop :=
  exists n, Calendar.dimensionValue row = Js.Num n.

(** [i] is what a search of the columns for the one named by [setting]
    gives: -1 when no column has that name (an absent setting names none),
    otherwise the position of the first column that has it. *)
Definition first_column_named (cols : list Calendar.Col)
  (setting : option string) (i : Z) : Prop :=
  (i = (-1)%Z
   /\ forall col, col ∈ cols -> Some (Calendar.name col) <> setting)
  \/ ((0 <= i < Z.of_nat (length cols))%Z
      /\ (exists col, cols !! Z.to_nat i = Some col
                      /\ Some (Calendar.name col) = setting)
      /\ forall j col, (j < Z.to_nat i)%nat -> cols !! j = Some col ->
                       Some (Calendar.name col) <> setting).

(** Sample inputs: a formatter that gives an ISO date string back, a string
    to number conversion under which no date string is a number, and a row
    made of a date string and a metric. *)
Module Sample.
Definition toString (m : Calendar.Moment) : string :=
  match Calendar.input m with
  | Js.Str s => s
  | Js.Num _ => "Invalid date"
  end.

Definition ToNumber (s : string) : option Q := None.

Definition row (date : string) (metric : Q) : Calendar.Row :=
  Calendar.mkRow (Js.Str date) metric.

Definition settings (fromStart : bool) : Calendar.Settings :=
  Calendar.mkSettings (Some "day") (Some "count") fromStart.

Definition three_days : list Calendar.Row :=
  [row "2020-01-01" 5; row "2020-01-02" 15; row "2020-01-03" 10].

Definition one_day : list Calendar.Row := [row "2020-05-05" 7].

Definition same_day_twice : list Calendar.Row :=
  [row "2020-05-05" 5; row "2020-05-05" 5].


Definition equal_metrics : list Calendar.Row :=
  [row "2020-05-05" 3; row "2020-05-06" 3].

Definition all_negative : list Calendar.Row :=
  [row "2020-05-05" (-3); row "2020-05-06" (-8)].

Definition epoch_millis : list Calendar.Row :=
  [Calendar.mkRow (Js.Num 1588636800000) 7;
   Calendar.mkRow (Js.Num 1577836800000) 2].

Definition cols : list Calendar.Col :=
  [Calendar.mkCol "day"; Calendar.mkCol "count"].

(** Raw rows whose cells are strings, with [String] the identity on a cell
    and the text [undefined] on a missing one. *)
Definition String_ (cell : option string) : string :=
  match cell with
  | Some s => s
  | None => "undefined"
  end.

Definition raw_rows : list (list string) :=
  [["2020-01-01"; "5"]; ["2020-01-02"; "15"]].
End Sample.

(** ** Comparisons on rationals *)

Lemma Qltb_true (a b : Q) : Js.Qltb a b = true <-> (a < b)%Q.
Proof.
  unfold Js.Qltb. rewrite negb_true_iff.
  destruct (Qle_bool b a) eqn:E.
  - apply Qle_bool_iff in E. split; [discriminate | intros H; lra].
  - split; [intros _ | reflexivity].
    destruct (Qlt_le_dec a b) as [H | H]; [exact H |].
    apply Qle_bool_iff in H. congruence.
Qed.

Lemma Qltb_false (a b : Q) : Js.Qltb a b = false <-> (b <= a)%Q.
Proof.
  destruct (Js.Qltb a b) eqn:E.
  - apply Qltb_true in E. split; [discriminate | intros H; lra].
  - split; [intros _ | reflexivity].
    destruct (Qlt_le_dec a b) as [H | H]; [| exact H].
    apply Qltb_true in H. congruence.
Qed.

Lemma ascending_pos (a x : Q) : (0 <? d3.ascending a x)%Z = true <-> (x < a)%Q.
Proof.
  unfold d3.ascending.
  destruct (Js.Qltb a x) eqn:E1; [| destruct (Js.Qltb x a) eqn:E2].
  - apply Qltb_true in E1. split; [discriminate | intros H; lra].
  - apply Qltb_true in E2. split; [intros _; exact E2 | reflexivity].
  - apply Qltb_false in E2. split; [discriminate | intros H; lra].
Qed.

(** ** The value range *)

Section ValueRange.
Import Calendar.
Local Open Scope Q_scope.

Local Abbreviation max_step :=
  (fun (max : Q) (row : Row) =>
     if Js.Qgtb max (metricValue row) then max else metricValue row).
Local Abbreviation min_step :=
  (fun (min : Q) (row : Row) =>
     if Js.Qltb min (metricValue row) then min else metricValue row).

Lemma max_fold_spec (rows : list Row) (acc : Q) :
  let r := fold_left max_step rows acc in
  acc <= r
  /\ (forall row, row ∈ rows -> metricValue row <= r)
  /\ (r = acc \/ exists row, row ∈ rows /\ r = metricValue row).
Proof.
  revert acc. induction rows as [| row rows IH]; intros acc; simpl.
  - split; [lra |]. split; [| left; reflexivity].
    intros row H. inversion H.
  - destruct (IH (max_step acc row)) as (H1 & H2 & H3).
    assert (Hs : acc <= max_step acc row /\ metricValue row <= max_step acc row
                 /\ (max_step acc row = acc \/ max_step acc row = metricValue row)).
    { unfold Js.Qgtb.
      destruct (Js.Qltb (metricValue row) acc) eqn:E.
      - apply Qltb_true in E. repeat split; try lra. left; reflexivity.
      - apply Qltb_false in E. repeat split; try lra. right; reflexivity. }
    destruct Hs as (Hs1 & Hs2 & Hs3).
    split; [lra |]. split.
    + intros row' Hin. apply elem_of_cons in Hin as [-> | Hin]; [lra | auto].
    + destruct H3 as [H3 | (row' & Hin & H3)].
      * destruct Hs3 as [Hs3 | Hs3]; [left; congruence |].
        right. exists row. split; [left | congruence].
      * right. exists row'. split; [right; exact Hin | exact H3].
Qed.

Lemma min_fold_spec (rows : list Row) (acc : Q) :
  let r := fold_left min_step rows acc in
  r <= acc
  /\ (forall row, row ∈ rows -> r <= metricValue row)
  /\ (r = acc \/ exists row, row ∈ rows /\ r = metricValue row).
Proof.
  revert acc. induction rows as [| row rows IH]; intros acc; simpl.
  - split; [lra |]. split; [| left; reflexivity].
    intros row H. inversion H.
  - destruct (IH (min_step acc row)) as (H1 & H2 & H3).
    assert (Hs : min_step acc row <= acc /\ min_step acc row <= metricValue row
                 /\ (min_step acc row = acc \/ min_step acc row = metricValue row)).
    { destruct (Js.Qltb acc (metricValue row)) eqn:E.
      - apply Qltb_true in E. repeat split; try lra. left; reflexivity.
      - apply Qltb_false in E. repeat split; try lra. right; reflexivity. }
    destruct Hs as (Hs1 & Hs2 & Hs3).
    split; [lra |]. split.
    + intros row' Hin. apply elem_of_cons in Hin as [-> | Hin]; [lra | auto].
    + destruct H3 as [H3 | (row' & Hin & H3)].
      * destruct Hs3 as [Hs3 | Hs3]; [left; congruence |].
        right. exists row. split; [left | congruence].
      * right. exists row'. split; [right; exact Hin | exact H3].
Qed.

Lemma max_spec (rows : list Row) :
  0 <= max rows
  /\ (forall row, row ∈ rows -> metricValue row <= max rows)
  /\ (max rows = 0 \/ exists row, row ∈ rows /\ max rows = metricValue row).
Proof. exact (max_fold_spec rows 0). Qed.

Lemma min_spec (rows : list Row) :
  min rows <= 0
  /\ (forall row, row ∈ rows -> min rows <= metricValue row)
  /\ (min rows = 0 \/ exists row, row ∈ rows /\ min rows = metricValue row).
Proof. exact (min_fold_spec rows 0). Qed.

Lemma min_le_max (rows : list Row) : min rows <= max rows.
Proof.
  pose proof (max_spec rows) as (H1 & _). pose proof (min_spec rows) as (H2 & _).
  lra.
Qed.

Lemma max_all_negative (rows : list Row) :
  Forall (fun row => metricValue row < 0) rows -> max rows = 0.
Proof.
  unfold max. induction 1 as [| row rows Hrow _ IH]; simpl; [reflexivity |].
  unfold Js.Qgtb. apply Qltb_true in Hrow. rewrite Hrow. exact IH.
Qed.

Lemma min_all_positive (rows : list Row) :
  Forall (fun row => 0 < metricValue row) rows -> min rows = 0.
Proof.
  unfold min. induction 1 as [| row rows Hrow _ IH]; simpl; [reflexivity |].
  apply Qltb_true in Hrow. rewrite Hrow. exact IH.
Qed.
End ValueRange.

(** ** The aggregation *)

Section Objects.
Local Open Scope Q_scope.

Lemma has_elem_of (k : string) (o : Js.object Q) :
  Js.has k o = true <-> k ∈ o.*1.
Proof.
  induction o as [| [k' v] o IH]; simpl.
  - split; [discriminate | intros H; inversion H].
  - rewrite elem_of_cons. destruct (String.eqb_spec k k') as [-> | Hne].
    + split; [left; reflexivity | reflexivity].
    + rewrite IH. split; [right; assumption | intros [? | ?]; [contradiction | assumption]].
Qed.

Lemma get_elem_of (k : string) (v : Q) (o : Js.object Q) :
  Js.get k o = Some v -> (k, v) ∈ o.
Proof.
  induction o as [| [k' v'] o IH]; simpl; [discriminate |].
  destruct (String.eqb_spec k k') as [-> | Hne].
  - intros [= ->]. left.
  - intros H. right. auto.
Qed.

Lemma elem_of_get (k : string) (v : Q) (o : Js.object Q) :
  NoDup (o.*1) -> (k, v) ∈ o -> Js.get k o = Some v.
Proof.
  induction o as [| [k' v'] o IH]; simpl; intros Hnd Hin; [inversion Hin |].
  apply NoDup_cons in Hnd as [Hk' Hnd].
  apply elem_of_cons in Hin as [[= -> ->] | Hin].
  - rewrite String.eqb_refl. reflexivity.
  - destruct (String.eqb_spec k k') as [-> | Hne]; [| auto].
    exfalso. apply Hk'. apply (list_elem_of_fmap_2 fst) in Hin. exact Hin.
Qed.

Lemma get_set_eq (k : string) (v : Q) (o : Js.object Q) :
  Js.get k (Js.set k v o) = Some v.
Proof.
  induction o as [| [k' v'] o IH]; simpl.
  - rewrite String.eqb_refl. reflexivity.
  - destruct (String.eqb_spec k k') as [-> | Hne]; simpl.
    + rewrite String.eqb_refl. reflexivity.
    + apply String.eqb_neq in Hne. rewrite Hne. exact IH.
Qed.

Lemma get_set_ne (k k' : string) (v : Q) (o : Js.object Q) :
  k' <> k -> Js.get k' (Js.set k v o) = Js.get k' o.
Proof.
  intros Hne. induction o as [| [k0 v0] o IH]; simpl.
  - apply String.eqb_neq in Hne. rewrite Hne. reflexivity.
  - destruct (String.eqb_spec k k0) as [-> | Hne0]; simpl.
    + apply String.eqb_neq in Hne. rewrite Hne. reflexivity.
    + rewrite IH. reflexivity.
Qed.

Lemma has_get (k : string) (o : Js.object Q) :
  Js.has k o = true -> exists v, Js.get k o = Some v.
Proof.
  induction o as [| [k' v'] o IH]; simpl; [discriminate |].
  destruct (String.eqb k k'); [eauto | exact IH].
Qed.

Lemma has_false_get (k : string) (o : Js.object Q) :
  Js.has k o = false -> Js.get k o = None.
Proof.
  induction o as [| [k' v'] o IH]; simpl; [reflexivity |].
  destruct (String.eqb k k'); [discriminate | exact IH].
Qed.

Lemma keys_set (k : string) (v : Q) (o : Js.object Q) :
  (Js.set k v o).*1
  = if Js.has k o then o.*1 else o.*1 ++ [k].
Proof.
  induction o as [| [k' v'] o IH]; csimpl; [reflexivity |].
  destruct (String.eqb_spec k k') as [-> | Hne]; csimpl; [reflexivity |].
  rewrite IH. destruct (Js.has k o); reflexivity.
Qed.

Lemma NoDup_keys_set (k : string) (v : Q) (o : Js.object Q) :
  NoDup (o.*1) -> NoDup ((Js.set k v o).*1).
Proof.
  intros Hnd. rewrite keys_set. destruct (Js.has k o) eqn:E; [exact Hnd |].
  apply NoDup_app. split; [exact Hnd |]. split; [| apply NoDup_singleton].
  intros k' Hin Hk'. apply list_elem_of_singleton in Hk' as ->.
  apply has_elem_of in Hin. congruence.
Qed.

End Objects.

Section Aggregation.
Import Calendar.
Variable toString : Moment -> string.
Local Open Scope Q_scope.

Lemma set_set (k : string) (v w : Q) (o : Js.object Q) :
  Js.set k v (Js.set k w o) = Js.set k v o.
Proof.
  induction o as [| [k' v'] o IH]; simpl.
  - rewrite String.eqb_refl. reflexivity.
  - destruct (String.eqb_spec k k') as [-> | Hne]; simpl.
    + rewrite String.eqb_refl. reflexivity.
    + apply String.eqb_neq in Hne. rewrite Hne, IH. reflexivity.
Qed.

(** The reducer in one write: the total found under the key, or 0 for a
    new key, plus the metric of the row. *)
Lemma dates_step_set (o : Js.object Q) (row : Row) :
  dates_step toString o row
  = Js.set (toString (moment (dimensionValue row)))
      (default 0 (Js.get (toString (moment (dimensionValue row))) o)
       + metricValue row) o.
Proof.
  unfold dates_step. set (date := toString _).
  destruct (Js.has date o) eqn:E.
  - destruct (has_get _ _ E) as [t Ht]. rewrite Ht. reflexivity.
  - rewrite get_set_eq, set_set, (has_false_get _ _ E). reflexivity.
Qed.



Lemma dates_fold_NoDup (rows : list Row) (o : Js.object Q) :
  NoDup o.*1 -> NoDup (fold_left (dates_step toString) rows o).*1.
Proof.
  revert o. induction rows as [| row rows IH]; intros o Hnd; simpl; [exact Hnd |].
  apply IH. rewrite dates_step_set. apply NoDup_keys_set, Hnd.
Qed.

Lemma dates_NoDup (rows : list Row) : NoDup (dates toString rows).*1.
Proof. apply dates_fold_NoDup. constructor. Qed.

(** An aggregated entry is read by key or found by enumeration alike. *)
Lemma dates_get_elem_of (rows : list Row) (k : string) (t : Q) :
  Js.get k (dates toString rows) = Some t
  <-> (k, t) ∈ Js.entries (dates toString rows).
Proof.
  split; [apply get_elem_of | apply elem_of_get, dates_NoDup].
Qed.

Lemma Forall_set (P : Q -> Prop) (k : string) (v : Q) (o : Js.object Q) :
  Forall (fun entry => P (snd entry)) o -> P v ->
  Forall (fun entry => P (snd entry)) (Js.set k v o).
Proof.
  intros Ho Hv. induction Ho as [| [k' v'] o Hhd Htl IH]; simpl.
  - constructor; [exact Hv | constructor].
  - destruct (String.eqb k k'); constructor; assumption.
Qed.

(** When every row carries the same metric [v], a total is a positive
    multiple of [v]: at least [v] when [v] is not negative, at most [v]
    when it is not positive. *)
Lemma dates_fold_equal_metrics (v : Q) (rows : list Row) (o : Js.object Q) :
  Forall (fun row => metricValue row == v) rows ->
  Forall (fun entry => (0 <= v -> v <= snd entry) /\ (v <= 0 -> snd entry <= v)) o ->
  Forall (fun entry => (0 <= v -> v <= snd entry) /\ (v <= 0 -> snd entry <= v))
    (fold_left (dates_step toString) rows o).
Proof.
  intros Hrows. revert o.
  induction Hrows as [| row rows Hrow _ IH]; intros o Ho; simpl; [exact Ho |].
  apply IH. rewrite dates_step_set.
  apply (Forall_set (fun t => (0 <= v -> v <= t) /\ (v <= 0 -> t <= v)));
    [exact Ho |].
  destruct (Js.get _ o) as [t |] eqn:E; simpl.
  - apply get_elem_of in E.
    rewrite Forall_forall in Ho. specialize (Ho _ E). simpl in Ho.
    destruct Ho as [Ho1 Ho2]. split; intros Hv.
    + specialize (Ho1 Hv). lra.
    + specialize (Ho2 Hv). lra.
  - split; intros Hv; lra.
Qed.

Lemma dates_equal_metrics (v : Q) (rows : list Row) (k : string) (t : Q) :
  Forall (fun row => metricValue row == v) rows ->
  Js.get k (dates toString rows) = Some t ->
  (0 <= v -> v <= t) /\ (v <= 0 -> t <= v).
Proof.
  intros Hrows Hget.
  pose proof (dates_fold_equal_metrics v rows [] Hrows (Forall_nil_2 _)) as H.
  rewrite Forall_forall in H. apply get_elem_of in Hget.
  exact (H _ Hget).
Qed.
End Aggregation.

(** ** Bisection *)

Section Bisection.
Local Open Scope Q_scope.
Variable a : list Q.

Lemma div2_between (lo hi : nat) :
  (lo < hi)%nat -> (lo <= Nat.div2 (lo + hi) < hi)%nat.
Proof.
  intros H. rewrite Nat.div2_div.
  pose proof (Nat.div_mod_eq (lo + hi) 2) as Hd.
  pose proof (Nat.mod_upper_bound (lo + hi) 2 ltac:(lia)) as Hm.
  lia.
Qed.

(** The loop exits within [hi - lo] turns, between [lo] and [hi]. *)
Lemma bisect_loop_total (fuel : nat) (x : Q) (lo hi : nat) :
  (lo <= hi)%nat -> (hi - lo <= fuel)%nat ->
  exists r, d3.bisect_loop fuel a x lo hi = Some r /\ (lo <= r <= hi)%nat.
Proof.
  revert lo hi. induction fuel as [| fuel IH]; intros lo hi Hle Hfuel; simpl.
  - destruct (Nat.ltb_spec lo hi); [lia |]. exists lo. split; [reflexivity | lia].
  - destruct (Nat.ltb_spec lo hi) as [Hlt | Hge];
      [| exists lo; split; [reflexivity | lia]].
    pose proof (div2_between lo hi Hlt) as Hmid.
    destruct (0 <? d3.ascending _ x)%Z.
    + destruct (IH lo (Nat.div2 (lo + hi))) as (r & Hr & Hb); [lia | lia |].
      exists r. split; [exact Hr | lia].
    + destruct (IH (Nat.div2 (lo + hi) + 1)%nat hi) as (r & Hr & Hb); [lia | lia |].
      exists r. split; [exact Hr | lia].
Qed.

Lemma bisect_total (x : Q) (lo hi : nat) :
  (lo <= hi)%nat ->
  exists r, d3.bisect a x lo hi = Some r /\ (lo <= r <= hi)%nat.
Proof. intros H. apply bisect_loop_total; [exact H | lia]. Qed.

(** On a sorted array the loop keeps: at most [x] before [lo], more than
    [x] from [hi] on. *)
Lemma bisect_loop_splits (fuel : nat) (x : Q) (lo0 hi0 lo hi : nat) :
  (forall i j, (i <= j < hi0)%nat -> nth i a 0 <= nth j a 0) ->
  (lo0 <= lo <= hi)%nat -> (hi <= hi0)%nat -> (hi - lo <= fuel)%nat ->
  (forall j, (lo0 <= j < lo)%nat -> nth j a 0 <= x) ->
  (forall j, (hi <= j < hi0)%nat -> x < nth j a 0) ->
  exists r, d3.bisect_loop fuel a x lo hi = Some r /\ splits a x lo0 hi0 r.
Proof.
  intros Hsorted. revert lo hi.
  induction fuel as [| fuel IH]; intros lo hi Hlo Hhi Hfuel Hbelow Habove; simpl.
  - destruct (Nat.ltb_spec lo hi); [lia |]. exists lo. split; [reflexivity |].
    repeat split; [lia | lia | exact Hbelow |]. intros j Hj. apply Habove. lia.
  - destruct (Nat.ltb_spec lo hi) as [Hlt | Hge].
    2:{ exists lo. split; [reflexivity |].
        repeat split; [lia | lia | exact Hbelow |]. intros j Hj. apply Habove. lia. }
    pose proof (div2_between lo hi Hlt) as Hmid.
    set (mid := Nat.div2 (lo + hi)) in *.
    destruct (0 <? d3.ascending (nth mid a 0%Q) x)%Z eqn:E.
    + apply ascending_pos in E.
      apply IH; [lia | lia | lia | exact Hbelow |].
      intros j Hj. destruct (Nat.lt_ge_cases j hi) as [Hjhi | Hjhi].
      * specialize (Hsorted mid j ltac:(lia)). lra.
      * apply Habove. lia.
    + assert (Hle : nth mid a 0 <= x).
      { destruct (Qlt_le_dec x (nth mid a 0)) as [H | H]; [| exact H].
        apply ascending_pos in H. congruence. }
      apply IH; [lia | lia | lia | | exact Habove].
      intros j Hj. destruct (Nat.lt_ge_cases j lo) as [Hjlo | Hjlo].
      * apply Hbelow. lia.
      * specialize (Hsorted j mid ltac:(lia)). lra.
Qed.

Lemma bisect_splits (x : Q) (lo hi : nat) :
  (forall i j, (i <= j < hi)%nat -> nth i a 0 <= nth j a 0) ->
  (lo <= hi)%nat ->
  exists r, d3.bisect a x lo hi = Some r /\ splits a x lo hi r.
Proof.
  intros Hsorted Hle.
  apply bisect_loop_splits; [exact Hsorted | lia | lia | lia | |]; intros j Hj; lia.
Qed.

Lemma splits_unique (x : Q) (lo hi r r' : nat) :
  splits a x lo hi r -> splits a x lo hi r' -> r = r'.
Proof.
  intros (Hr & Hb & Ha) (Hr' & Hb' & Ha').
  destruct (Nat.lt_trichotomy r r') as [H | [H | H]]; [| exact H |]; exfalso.
  - specialize (Hb' r ltac:(lia)). specialize (Ha r ltac:(lia)). lra.
  - specialize (Hb r' ltac:(lia)). specialize (Ha' r' ltac:(lia)). lra.
Qed.

Lemma splits_mono (x y : Q) (lo hi r r' : nat) :
  splits a x lo hi r -> splits a y lo hi r' -> x < y -> (r <= r')%nat.
Proof.
  intros (Hr & Hb & Ha) (Hr' & Hb' & Ha') Hxy.
  destruct (Nat.le_gt_cases r r') as [H | H]; [exact H | exfalso].
  specialize (Hb r' ltac:(lia)). specialize (Ha' r' ltac:(lia)). lra.
Qed.
End Bisection.

(** ** The thresholds *)

Section Thresholds.
Import Calendar.
Local Open Scope Q_scope.

Lemma nth_layout_histogramBinFixed (range : Q * Q) (n j : nat) :
  (j <= n)%nat ->
  nth j (d3.layout_histogramBinFixed range n) 0
  = (snd range - fst range) / inject_Z (Z.of_nat n) * inject_Z (Z.of_nat j)
    + fst range.
Proof.
  intros Hj. unfold d3.layout_histogramBinFixed.
  set (f := fun x : nat => _).
  rewrite (nth_indep _ 0 (f 0%nat)) by (rewrite length_map, length_seq; lia).
  rewrite map_nth, seq_nth by lia. reflexivity.
Qed.

Lemma length_layout_histogramBinFixed (range : Q * Q) (n : nat) :
  length (d3.layout_histogramBinFixed range n) = S n.
Proof. unfold d3.layout_histogramBinFixed. rewrite length_map, length_seq. reflexivity. Qed.

(** The thresholds cut [[min, max]] in ten parts of equal width. *)
Lemma threshold_eq (rows : list Row) (j : nat) :
  (j <= 10)%nat ->
  threshold rows j
  == min rows + (max rows - min rows) * inject_Z (Z.of_nat j) / 10.
Proof.
  intros Hj. unfold threshold, thresholds.
  rewrite nth_layout_histogramBinFixed by exact Hj. simpl fst; simpl snd.
  change (inject_Z (Z.of_nat 10)) with 10. field.
Qed.

(** The same, in a form linear arithmetic accepts. *)
Lemma threshold_lin (rows : list Row) (j : nat) :
  (j <= 10)%nat ->
  threshold rows j
  == min rows + (max rows - min rows) * inject_Z (Z.of_nat j) * (1 # 10).
Proof. intros Hj. rewrite threshold_eq by exact Hj. field. Qed.

Lemma threshold_0 (rows : list Row) : threshold rows 0 == min rows.
Proof. rewrite threshold_eq by lia. change (inject_Z (Z.of_nat 0)) with 0. field. Qed.

Lemma threshold_10 (rows : list Row) : threshold rows 10 == max rows.
Proof. rewrite threshold_eq by lia. change (inject_Z (Z.of_nat 10)) with 10. field. Qed.

Lemma threshold_mono (rows : list Row) (i j : nat) :
  (i <= j <= 10)%nat -> threshold rows i <= threshold rows j.
Proof.
  intros Hij. rewrite !threshold_lin by lia.
  pose proof (min_le_max rows) as Hrange.
  assert (Hq : inject_Z (Z.of_nat i) <= inject_Z (Z.of_nat j)).
  { rewrite <- Zle_Qle. lia. }
  assert (H : 0 <= (max rows - min rows) * (inject_Z (Z.of_nat j) - inject_Z (Z.of_nat i))).
  { apply Qmult_le_0_compat; lra. }
  revert H. generalize (inject_Z (Z.of_nat i)) (inject_Z (Z.of_nat j)).
  intros qi qj H. lra.
Qed.

(** With a range that is not a point, the thresholds increase strictly. *)
Lemma threshold_strict (rows : list Row) (i j : nat) :
  min rows < max rows -> (i < j <= 10)%nat ->
  threshold rows i < threshold rows j.
Proof.
  intros Hrange Hij. rewrite !threshold_lin by lia.
  assert (Hq : inject_Z (Z.of_nat i) < inject_Z (Z.of_nat j)).
  { rewrite <- Zlt_Qlt. lia. }
  assert (H : 0 < (max rows - min rows) * (inject_Z (Z.of_nat j) - inject_Z (Z.of_nat i))).
  { apply Qmult_lt_0_compat; lra. }
  revert H. generalize (inject_Z (Z.of_nat i)) (inject_Z (Z.of_nat j)).
  intros qi qj H. lra.
Qed.

(** The bisection [render] relies on returns, and splits the thresholds. *)
Lemma bisect_thresholds (rows : list Row) (t : Q) :
  exists r, d3.bisect (thresholds rows) t 1 10 = Some r
            /\ splits (thresholds rows) t 1 10 r.
Proof.
  apply bisect_splits; [| lia].
  intros i j Hij. apply (threshold_mono rows i j). lia.
Qed.
End Thresholds.

(** ** The histogram *)

Section HistogramFacts.
Context {A : Type}.
Variable valuer : A -> Q.
Variable range : Q * Q.
Local Open Scope Q_scope.

Lemma in_bin_insert (bins : list (list A)) (j i : nat) (bin : list A) (d e : A) :
  bins !! j = Some bin ->
  in_bin (<[j := bin ++ [d]]> bins) i e <-> in_bin bins i e \/ (i = j /\ e = d).
Proof.
  intros Hbin. unfold in_bin. destruct (decide (i = j)) as [-> | Hne].
  - rewrite list_lookup_insert_eq by (eapply lookup_lt_Some; exact Hbin). split.
    + intros (b & [= <-] & Hin). apply elem_of_app in Hin as [Hin | Hin].
      * left. exists bin. split; [exact Hbin | exact Hin].
      * apply list_elem_of_singleton in Hin. right. split; [reflexivity | exact Hin].
    + intros [(b & Hb & Hin) | [_ ->]]; exists (bin ++ [d]); (split; [reflexivity |]).
      * apply elem_of_app. left. congruence.
      * apply elem_of_app. right. apply list_elem_of_singleton. reflexivity.
  - rewrite list_lookup_insert_ne by congruence. split.
    + intros H. left. exact H.
    + intros [H | [H _]]; [exact H | contradiction].
Qed.

Lemma in_bin_replicate (m i : nat) (e : A) : ~ in_bin (replicate m []) i e.
Proof.
  intros (b & Hb & Hin). apply lookup_replicate in Hb as [-> _].
  inversion Hin.
Qed.

(** The filling loop returns; it adds each value of the range to the bin
    the bisection names, and nothing else. *)
Lemma fill_spec (th : list Q) (m : nat) (data : list A) (bins : list (list A)) :
  (1 <= m)%nat -> length bins = m ->
  exists bs, d3.fill valuer range th m data bins = Some bs
    /\ length bs = m
    /\ forall i e, in_bin bs i e
         <-> in_bin bins i e
             \/ (e ∈ data
                 /\ (fst range <= valuer e /\ valuer e <= snd range)
                 /\ d3.bisect th (valuer e) 1 m = Some (S i)).
Proof.
  intros Hm. revert bins. induction data as [| d data IH]; intros bins Hlen; simpl.
  - exists bins. split; [reflexivity |]. split; [exact Hlen |].
    intros i e. split; [intros H; left; exact H |].
    intros [H | (H & _)]; [exact H | inversion H].
  - destruct (Qle_bool (fst range) (valuer d) && Qle_bool (valuer d) (snd range)) eqn:E.
    + apply andb_true_iff in E as [E1 E2].
      apply Qle_bool_iff in E1. apply Qle_bool_iff in E2.
      destruct (bisect_total th (valuer d) 1 m Hm) as (r & Hr & Hb).
      rewrite Hr.
      destruct (lookup_lt_is_Some_2 bins (r - 1)%nat ltac:(lia)) as [bin Hbin].
      rewrite Hbin.
      destruct (IH (<[(r - 1)%nat := bin ++ [d]]> bins)) as (bs & Hbs & Hl & Hspec).
      { rewrite length_insert. exact Hlen. }
      exists bs. split; [exact Hbs |]. split; [exact Hl |].
      intros i e. rewrite Hspec, (in_bin_insert bins _ i bin d e Hbin), elem_of_cons.
      split.
      * intros [[H | [-> ->]] | (H1 & H2 & H3)].
        -- left. exact H.
        -- right. split; [left; reflexivity |]. split; [split; assumption |].
           rewrite Hr. f_equal. lia.
        -- right. split; [right; exact H1 |]. split; assumption.
      * intros [H | ([-> | H1] & H2 & H3)].
        -- left. left. exact H.
        -- left. right. split; [| reflexivity]. rewrite Hr in H3.
           injection H3 as ->. lia.
        -- right. split; [exact H1 |]. split; assumption.
    + destruct (IH bins Hlen) as (bs & Hbs & Hl & Hspec).
      exists bs. split; [exact Hbs |]. split; [exact Hl |].
      intros i e. rewrite Hspec, elem_of_cons. split.
      * intros [H | (H1 & H2 & H3)]; [left; exact H |].
        right. split; [right; exact H1 |]. split; assumption.
      * intros [H | ([-> | H1] & H2 & H3)]; [left; exact H | |].
        -- exfalso. destruct H2 as [H2a H2b].
           apply Qle_bool_iff in H2a. apply Qle_bool_iff in H2b.
           rewrite H2a, H2b in E. discriminate.
        -- right. split; [exact H1 |]. split; assumption.
Qed.

Lemma layout_histogram_spec (n : nat) (data : list A) :
  (1 <= n)%nat ->
  exists bs, d3.layout_histogram valuer range n data = Some bs
    /\ length bs = n
    /\ forall i e, in_bin bs i e
         <-> e ∈ data
             /\ (fst range <= valuer e /\ valuer e <= snd range)
             /\ d3.bisect (d3.layout_histogramBinFixed range n) (valuer e) 1 n
                = Some (S i).
Proof.
  intros Hn. unfold d3.layout_histogram.
  rewrite length_layout_histogramBinFixed.
  replace (S n - 1)%nat with n by lia.
  destruct (Nat.ltb_spec 0 n) as [_ | H]; [| lia].
  destruct (fill_spec (d3.layout_histogramBinFixed range n) n data
              (replicate n []) Hn (length_replicate _ _))
    as (bs & Hbs & Hl & Hspec).
  exists bs. split; [exact Hbs |]. split; [exact Hl |].
  intros i e. rewrite Hspec. split.
  - intros [H | H]; [| exact H]. exfalso. exact (in_bin_replicate _ _ _ H).
  - intros H. right. exact H.
Qed.
End HistogramFacts.

(** ** The bin assignment *)

Section Assignment.
Import Calendar.
Local Open Scope Q_scope.

Lemma in_bin_cons_0 {A : Type} (bin : list A) (rest : list (list A)) (e : A) :
  in_bin (bin :: rest) 0 e <-> e ∈ bin.
Proof.
  unfold in_bin; simpl. split.
  - intros (b & [= <-] & H). exact H.
  - intros H. exists bin. split; [reflexivity | exact H].
Qed.

Lemma in_bin_cons_S {A : Type} (bin : list A) (rest : list (list A))
  (i : nat) (e : A) :
  in_bin (bin :: rest) (S i) e <-> in_bin rest i e.
Proof. reflexivity. Qed.

(** After the [forEach] over a bin, a key of the bin maps to its index and
    any other key is untouched. *)
Lemma assign_bin_lookup (bin : list (string * Q)) (ix : nat)
  (acc : gmap string nat) (k : string) :
  ((forall t, (k, t) ∉ bin) /\ assign_bin acc bin ix !! k = acc !! k)
  \/ ((exists t, (k, t) ∈ bin) /\ assign_bin acc bin ix !! k = Some ix).
Proof.
  unfold assign_bin. revert acc.
  induction bin as [| [k' t'] bin IH]; intros acc; simpl.
  - left. split; [| reflexivity]. intros t H. inversion H.
  - destruct (IH (<[k' := ix]> acc)) as [[Hno Heq] | [(t & Hin) Heq]].
    + destruct (decide (k' = k)) as [-> | Hne].
      * right. split; [exists t'; left |].
        rewrite Heq. apply lookup_insert_eq.
      * left. split.
        -- intros t Hin. apply elem_of_cons in Hin as [[= ? ?] | Hin];
             [congruence | exact (Hno t Hin)].
        -- rewrite Heq. apply lookup_insert_ne. exact Hne.
    + right. split; [exists t; right; exact Hin | exact Heq].
Qed.

(** After the [reduce] over the bins, a key found in a bin maps to the
    index of a bin that holds it, and any other key is untouched. *)
Lemma reduce_bins_lookup (bs : list (list (string * Q))) (ix : nat)
  (acc : gmap string nat) (k : string) :
  ((forall i t, ~ in_bin bs i (k, t)) /\ reduce_bins bs ix acc !! k = acc !! k)
  \/ (exists i t, in_bin bs i (k, t)
                  /\ reduce_bins bs ix acc !! k = Some (ix + i)%nat).
Proof.
  revert ix acc. induction bs as [| bin rest IH]; intros ix acc; simpl.
  - left. split; [| reflexivity]. intros i t (b & Hb & _). inversion Hb.
  - destruct (IH (S ix) (assign_bin acc bin ix)) as [[Hno Heq] | (i & t & Hin & Heq)].
    + destruct (assign_bin_lookup bin ix acc k) as [[Hno' Heq'] | [(t & Hin) Heq']].
      * left. split; [| congruence].
        intros [| i] t H.
        -- apply in_bin_cons_0 in H. exact (Hno' t H).
        -- apply in_bin_cons_S in H. exact (Hno i t H).
      * right. exists 0%nat, t. split; [apply in_bin_cons_0; exact Hin |].
        rewrite Heq, Heq'. f_equal. lia.
    + right. exists (S i), t. split; [apply in_bin_cons_S; exact Hin |].
      rewrite Heq. f_equal. lia.
Qed.

Variable toString : Moment -> string.

(** The histogram of [render] returns ten bins; bin [i] holds the
    aggregated entries of the range whose total the thresholds split at
    [i + 1]. *)
Lemma binsh_spec (rows : list Row) :
  exists bs, binsh toString rows = Some bs
    /\ length bs = 10%nat
    /\ forall i k t, in_bin bs i (k, t)
         <-> Js.get k (dates toString rows) = Some t
             /\ (min rows <= t /\ t <= max rows)
             /\ splits (thresholds rows) t 1 10 (S i).
Proof.
  destruct (layout_histogram_spec (A := string * Q) snd (min rows, max rows) 10
              (Js.entries (dates toString rows)) ltac:(lia))
    as (bs & Hbs & Hl & Hspec).
  exists bs. split; [exact Hbs |]. split; [exact Hl |].
  intros i k t. rewrite Hspec, <- dates_get_elem_of. simpl.
  fold (thresholds rows).
  destruct (bisect_thresholds rows t) as (r & Hr & Hsplit). rewrite Hr.
  split; intros (H1 & H2 & H3); (split; [exact H1 |]; split; [exact H2 |]).
  - injection H3 as <-. exact Hsplit.
  - f_equal. exact (splits_unique _ _ _ _ _ _ Hsplit H3).
Qed.

(** The assignment [render] hands to the widget: it is always produced,
    and it maps a key to [j] exactly for the aggregated entries of the
    range whose total the thresholds split at [j + 1]. *)
Lemma bins_spec (rows : list Row) :
  exists b, bins toString rows = Some b
    /\ forall k j, b !! k = Some j
         <-> exists t, Js.get k (dates toString rows) = Some t
               /\ (min rows <= t /\ t <= max rows)
               /\ splits (thresholds rows) t 1 10 (S j).
Proof.
  unfold bins. destruct (binsh_spec rows) as (bs & -> & Hl & Hspec).
  eexists. split; [reflexivity |]. intros k j.
  destruct (reduce_bins_lookup bs 0 ∅ k) as [[Hno Heq] | (i & t & Hin & Heq)];
    rewrite Heq.
  - rewrite lookup_empty. split; [discriminate |].
    intros (t & H). exfalso. apply (Hno j t). apply Hspec. exact H.
  - simpl. pose proof Hin as Hin'. apply Hspec in Hin' as (Hget & Hrange & Hsplit).
    split.
    + intros [= <-]. exists t. split; [exact Hget |]. split; assumption.
    + intros (t' & Hget' & _ & Hsplit'). f_equal.
      assert (t' = t) as -> by congruence.
      pose proof (splits_unique _ _ _ _ _ _ Hsplit Hsplit'). lia.
Qed.
End Assignment.

(** ** Where a total lands *)

Section Landing.
Import Calendar.
Variable toString : Moment -> string.
Local Open Scope Q_scope.

(** Bins are half-open: a total in [[threshold i, threshold (i + 1))]
    splits the thresholds at [i + 1]. *)
Lemma splits_half_open (rows : list Row) (t : Q) (i : nat) :
  (i < 10)%nat -> threshold rows i <= t -> t < threshold rows (S i) ->
  splits (thresholds rows) t 1 10 (S i).
Proof.
  intros Hi Hlo Hhi. split; [lia |]. split; intros j Hj.
  - pose proof (threshold_mono rows j i ltac:(lia)) as H.
    unfold threshold in *. lra.
  - pose proof (threshold_mono rows (S i) j ltac:(lia)) as H.
    unfold threshold in *. lra.
Qed.

(** The last bin is closed: the upper end of the range splits the
    thresholds at 10. *)
Lemma splits_at_max (rows : list Row) (t : Q) :
  t == max rows -> splits (thresholds rows) t 1 10 10.
Proof.
  intros Ht. split; [lia |]. split; intros j Hj; [| lia].
  pose proof (threshold_mono rows j 10 ltac:(lia)) as H.
  pose proof (threshold_10 rows) as H10.
  unfold threshold in *. lra.
Qed.

(** An aggregated entry of the range is assigned the bin its total
    splits the thresholds at. *)
Lemma bins_assigns (rows : list Row) (k : string) (t : Q) (j : nat) :
  Js.get k (dates toString rows) = Some t ->
  min rows <= t -> t <= max rows ->
  splits (thresholds rows) t 1 10 (S j) ->
  exists b, bins toString rows = Some b /\ b !! k = Some j.
Proof.
  intros Hget Hlo Hhi Hsplit.
  destruct (bins_spec toString rows) as (b & Hb & Hspec).
  exists b. split; [exact Hb |]. apply Hspec. exists t. auto.
Qed.

(** An aggregated entry outside the range is assigned no bin. *)
Lemma bins_ignores (rows : list Row) (k : string) (t : Q) :
  Js.get k (dates toString rows) = Some t ->
  t < min rows \/ max rows < t ->
  exists b, bins toString rows = Some b /\ b !! k = None.
Proof.
  intros Hget Hout.
  destruct (bins_spec toString rows) as (b & Hb & Hspec).
  exists b. split; [exact Hb |].
  destruct (b !! k) as [j |] eqn:E; [exfalso | reflexivity].
  apply Hspec in E as (t' & Hget' & [Hlo Hhi] & _).
  assert (t' = t) as -> by congruence. lra.
Qed.

(** With one metric [v] in every row, the range is [[0, v]] or [[v, 0]]. *)
Lemma max_equal_metrics (rows : list Row) (v : Q) :
  rows <> [] -> Forall (fun row => metricValue row == v) rows ->
  0 <= v -> max rows == v.
Proof.
  intros Hne Hall Hv. rewrite Forall_forall in Hall.
  destruct (max_spec rows) as (H0 & Hub & Hatt).
  destruct rows as [| row rows]; [congruence |].
  pose proof (Hub row ltac:(left)) as H1.
  pose proof (Hall row ltac:(left)) as H2.
  destruct Hatt as [Hatt | (row' & Hin & Hatt)].
  - rewrite Hatt in *. lra.
  - rewrite Hatt in *. pose proof (Hall row' Hin). lra.
Qed.

Lemma min_equal_metrics (rows : list Row) (v : Q) :
  rows <> [] -> Forall (fun row => metricValue row == v) rows ->
  v <= 0 -> min rows == v.
Proof.
  intros Hne Hall Hv. rewrite Forall_forall in Hall.
  destruct (min_spec rows) as (H0 & Hlb & Hatt).
  destruct rows as [| row rows]; [congruence |].
  pose proof (Hlb row ltac:(left)) as H1.
  pose proof (Hall row ltac:(left)) as H2.
  destruct Hatt as [Hatt | (row' & Hin & Hatt)].
  - rewrite Hatt in *. lra.
  - rewrite Hatt in *. pose proof (Hall row' Hin). lra.
Qed.
End Landing.

(** ** The date range *)

Section DateRange.
Import Calendar.
Variable ToNumber : string -> option Q.

Lemma lt_Num (a b : Z) : Js.lt ToNumber (Js.Num a) (Js.Num b) = (a <? b)%Z.
Proof.
  unfold Js.lt; simpl. destruct (Z.ltb_spec a b) as [H | H].
  - apply Qltb_true. rewrite <- Zlt_Qlt. exact H.
  - apply Qltb_false. rewrite <- Zle_Qle. exact H.
Qed.

(** On numeric cells the fold for [minDate] started at [acc] returns the
    least of [acc] and the cells. *)
Lemma minDate_fold_numbers (rows : list Row) (acc : Z) :
  Forall (fun row => exists n, dimensionValue row = Js.Num n) rows ->
  exists lo,
    fold_left
      (fun min row =>
         if Js.lt ToNumber min (dimensionValue row) then min
         else dimensionValue row)
      rows (Js.Num acc) = Js.Num lo
    /\ (lo <= acc)%Z
    /\ (forall row n, row ∈ rows -> dimensionValue row = Js.Num n -> (lo <= n)%Z)
    /\ (lo = acc \/ exists row, row ∈ rows /\ dimensionValue row = Js.Num lo).
Proof.
  intros Hnum. revert acc.
  induction Hnum as [| row rows [n Hn] _ IH]; intros acc; cbn [fold_left].
  - exists acc. split; [reflexivity |]. split; [lia |].
    split; [intros row n H; inversion H | left; reflexivity].
  - rewrite Hn, lt_Num.
    destruct (Z.ltb_spec acc n) as [H | H].
    + destruct (IH acc) as (lo & Hfold & Hle & Hall & Hatt).
      exists lo. split; [exact Hfold |]. split; [exact Hle |]. split.
      * intros row' n' Hin Hn'. apply elem_of_cons in Hin as [-> | Hin];
          [| eauto]. assert (n' = n) by congruence. lia.
      * destruct Hatt as [-> | (row' & Hin & Hatt)]; [left; reflexivity |].
        right. exists row'. split; [right; exact Hin | exact Hatt].
    + destruct (IH n) as (lo & Hfold & Hle & Hall & Hatt).
      exists lo. split; [exact Hfold |]. split; [lia |]. split.
      * intros row' n' Hin Hn'. apply elem_of_cons in Hin as [-> | Hin];
          [| eauto]. assert (n' = n) by congruence. lia.
      * right. destruct Hatt as [-> | (row' & Hin & Hatt)].
        -- exists row. split; [left | exact Hn].
        -- exists row'. split; [right; exact Hin | exact Hatt].
Qed.

Lemma maxDate_fold_numbers (rows : list Row) (acc : Z) :
  Forall (fun row => exists n, dimensionValue row = Js.Num n) rows ->
  exists hi,
    fold_left
      (fun max row =>
         if Js.gt ToNumber max (dimensionValue row) then max
         else dimensionValue row)
      rows (Js.Num acc) = Js.Num hi
    /\ (acc <= hi)%Z
    /\ (forall row n, row ∈ rows -> dimensionValue row = Js.Num n -> (n <= hi)%Z)
    /\ (hi = acc \/ exists row, row ∈ rows /\ dimensionValue row = Js.Num hi).
Proof.
  intros Hnum. revert acc.
  induction Hnum as [| row rows [n Hn] _ IH]; intros acc; cbn [fold_left].
  - exists acc. split; [reflexivity |]. split; [lia |].
    split; [intros row n H; inversion H | left; reflexivity].
  - rewrite Hn.
    change (Js.gt ToNumber (Js.Num acc) (Js.Num n))
      with (Js.lt ToNumber (Js.Num n) (Js.Num acc)).
    rewrite lt_Num.
    destruct (Z.ltb_spec n acc) as [H | H].
    + destruct (IH acc) as (hi & Hfold & Hle & Hall & Hatt).
      exists hi. split; [exact Hfold |]. split; [exact Hle |]. split.
      * intros row' n' Hin Hn'. apply elem_of_cons in Hin as [-> | Hin];
          [| eauto]. assert (n' = n) by congruence. lia.
      * destruct Hatt as [-> | (row' & Hin & Hatt)]; [left; reflexivity |].
        right. exists row'. split; [right; exact Hin | exact Hatt].
    + destruct (IH n) as (hi & Hfold & Hle & Hall & Hatt).
      exists hi. split; [exact Hfold |]. split; [lia |]. split.
      * intros row' n' Hin Hn'. apply elem_of_cons in Hin as [-> | Hin];
          [| eauto]. assert (n' = n) by congruence. lia.
      * right. destruct Hatt as [-> | (row' & Hin & Hatt)].
        -- exists row. split; [left | exact Hn].
        -- exists row'. split; [right; exact Hin | exact Hatt].
Qed.

(** With numeric cells, say epoch milliseconds, the seed takes part in the
    result: [minDate] is at most 0 and [maxDate] at least 0, so the two are
    the same only when every cell is 0. *)
Lemma dates_of_numbers_coincide (rows : list Row) :
  Forall (fun row => exists n, dimensionValue row = Js.Num n) rows ->
  minDate ToNumber rows = maxDate ToNumber rows
  <-> Forall (fun row => dimensionValue row = Js.Num 0) rows.
Proof.
  intros Hnum. unfold minDate, maxDate.
  destruct (minDate_fold_numbers rows 0 Hnum) as (lo & -> & Hlo & Hlb & Hlatt).
  destruct (maxDate_fold_numbers rows 0 Hnum) as (hi & -> & Hhi & Hub & Hhatt).
  rewrite Forall_forall. split.
  - intros [= ->] row Hin.
    rewrite Forall_forall in Hnum. destruct (Hnum row Hin) as [n Hn].
    pose proof (Hlb row n Hin Hn). pose proof (Hub row n Hin Hn).
    rewrite Hn. f_equal. lia.
  - intros Hzero. f_equal.
    assert (Hl : lo = 0%Z).
    { destruct Hlatt as [H | (row & Hin & H)]; [exact H |].
      specialize (Hzero row Hin). congruence. }
    assert (Hh : hi = 0%Z).
    { destruct Hhatt as [H | (row & Hin & H)]; [exact H |].
      specialize (Hzero row Hin). congruence. }
    congruence.
Qed.
End DateRange.

(** ** Sample renderings *)

(** Three days with the metrics 5, 15 and 10: the range is [[0, 15]], the
    bins are 1.5 wide, and the days go to bins 3, 9 and 6. *)
Example three_days_bins :
  Calendar.min Sample.three_days = 0%Q
  /\ Calendar.max Sample.three_days = 15%Q
  /\ Calendar.bins Sample.toString Sample.three_days
     = Some (<["2020-01-01" := 3%nat]>
               (<["2020-01-02" := 9%nat]> {["2020-01-03" := 6%nat]})).
Proof. repeat split; vm_compute; reflexivity. Qed.

(** Date strings that are not numbers: the first comparison with the seed
    is false, the seed is dropped, and the folds are the true least and
    greatest strings. *)
Example three_days_dates :
  Calendar.minDate Sample.ToNumber Sample.three_days = Js.Str "2020-01-01"
  /\ Calendar.maxDate Sample.ToNumber Sample.three_days = Js.Str "2020-01-03".
Proof. split; reflexivity. Qed.

(** Epoch milliseconds: the seed 0 is the least value, so [minDate] is the
    epoch itself and the two anchors differ. *)
Example epoch_millis_dates :
  Calendar.minDate Sample.ToNumber Sample.epoch_millis = Js.Num 0
  /\ Calendar.maxDate Sample.ToNumber Sample.epoch_millis = Js.Num 1588636800000
  /\ Calendar.initial Sample.ToNumber (Sample.settings true) Sample.epoch_millis
     <> Calendar.initial Sample.ToNumber (Sample.settings false) Sample.epoch_millis.
Proof. repeat split; try reflexivity. vm_compute. discriminate. Qed.

(** No rows, then no settings: the row check comes first. *)
Example checkRenderable_samples :
  Calendar.checkRenderable [] (Calendar.mkSettings None None true)
  = Some (Calendar.MinRowsError 1 0)
  /\ Calendar.checkRenderable Sample.one_day (Calendar.mkSettings (Some "day") None true)
     = Some (Calendar.ChartSettingsError "Which columns do you want to use?" "Data")
  /\ Calendar.checkRenderable Sample.one_day (Sample.settings true) = None.
Proof. repeat split; reflexivity. Qed.

(** ** The properties of the specification *)


(** C3, zero-seeded range: [max] is the greatest and [min] the least of 0
    and the metric cells of the rows, so rows whose metrics are all negative
    give [max = 0] and rows whose metrics are all positive give [min = 0]. *)
Theorem zero_seeded_range (rows : list Calendar.Row) :
  (Forall (fun row => (Calendar.metricValue row < 0)%Q) rows ->
   Calendar.max rows = 0%Q)
  /\ (Forall (fun row => (0 < Calendar.metricValue row)%Q) rows ->
      Calendar.min rows = 0%Q)
  /\ ((0 <= Calendar.max rows)%Q
      /\ (forall row, row ∈ rows ->
                      (Calendar.metricValue row <= Calendar.max rows)%Q)
      /\ (Calendar.max rows = 0%Q
          \/ exists row, row ∈ rows
                         /\ Calendar.max rows = Calendar.metricValue row))
  /\ ((Calendar.min rows <= 0)%Q
      /\ (forall row, row ∈ rows ->
                      (Calendar.min rows <= Calendar.metricValue row)%Q)
      /\ (Calendar.min rows = 0%Q
          \/ exists row, row ∈ rows
                         /\ Calendar.min rows = Calendar.metricValue row)).
Proof.
  split; [apply max_all_negative |]. split; [apply min_all_positive |].
  split; [apply max_spec | apply min_spec].
Qed.

Lemma zero_seeded_range_witness :
  Calendar.max Sample.all_negative = 0%Q
  /\ Calendar.min Sample.three_days = 0%Q.
Proof.
  split.
  - apply (proj1 (zero_seeded_range Sample.all_negative)).
    repeat constructor.
  - apply (proj1 (proj2 (zero_seeded_range Sample.three_days))).
    repeat constructor.
Defined.

(** C7, anchor selection toggling: the initial date is the moment of
    [minDate] when the widget shows from the start and the moment of
    [maxDate] when it does not, both being the folds seeded with 0; the two
    anchors coincide exactly when [minDate] and [maxDate] do. *)
Theorem anchor_selection_toggling
  (ToNumber : string -> option Q) (dimension metric : option string)
  (rows : list Calendar.Row) :
  Calendar.initial ToNumber (Calendar.mkSettings dimension metric true) rows
  = Calendar.moment (Calendar.minDate ToNumber rows)
  /\ Calendar.initial ToNumber (Calendar.mkSettings dimension metric false) rows
     = Calendar.moment (Calendar.maxDate ToNumber rows)
  /\ (Calendar.initial ToNumber (Calendar.mkSettings dimension metric true) rows
      = Calendar.initial ToNumber (Calendar.mkSettings dimension metric false) rows
      <-> Calendar.minDate ToNumber rows = Calendar.maxDate ToNumber rows).
Proof.
  unfold Calendar.initial; simpl. split; [reflexivity |]. split; [reflexivity |].
  split; [intros [= H]; exact H | intros ->; reflexivity].
Qed.

(** C9, pre-invocation validation: [checkRenderable] throws a
    [MinRowsError] exactly when there is no row, a [ChartSettingsError]
    exactly when there is a row and the dimension or the metric setting is
    missing, and nothing otherwise. *)
Theorem checkRenderable_spec
  (rows : list Calendar.Row) (settings : Calendar.Settings) :
  ((exists minRows actualRows,
       Calendar.checkRenderable rows settings
       = Some (Calendar.MinRowsError minRows actualRows))
   <-> (length rows < 1)%nat)
  /\ ((exists message section,
          Calendar.checkRenderable rows settings
          = Some (Calendar.ChartSettingsError message section))
      <-> (1 <= length rows)%nat
          /\ (missing (Calendar.calendar_dimension settings)
              \/ missing (Calendar.calendar_metric settings)))
  /\ (Calendar.checkRenderable rows settings = None
      <-> ~ (length rows < 1)%nat
          /\ ~ (missing (Calendar.calendar_dimension settings)
                \/ missing (Calendar.calendar_metric settings))).
Proof.
  unfold Calendar.checkRenderable, missing.
  destruct (Nat.ltb_spec (length rows) 1) as [Hlen | Hlen].
  - split; [| split].
    + split; [intros _; exact Hlen | intros _; eauto].
    + split; [intros (m & s & H); discriminate | intros [H _]; lia].
    + split; [discriminate | intros [H _]; contradiction].
  - destruct (Calendar.not_ (Calendar.calendar_dimension settings)
              || Calendar.not_ (Calendar.calendar_metric settings)) eqn:E.
    + apply orb_true_iff in E. split; [| split].
      * split; [intros (a & b & H); discriminate | lia].
      * split; [intros _; split; [exact Hlen | exact E] | intros _; eauto].
      * split; [discriminate | intros [_ H]; contradiction].
    + apply orb_false_iff in E as [E1 E2]. split; [| split].
      * split; [intros (a & b & H); discriminate | lia].
      * split; [intros (m & s & H); discriminate |].
        intros [_ [H | H]]; congruence.
      * split; [intros _ | reflexivity].
        split; [lia | intros [H | H]; congruence].
Qed.

(** C10, fixed bin count: the histogram always has ten bins, whatever the
    rows, so every index of the assignment lies between 0 and 9. *)
Theorem bin_index_range
  (toString : Calendar.Moment -> string) (rows : list Calendar.Row) :
  (exists bs, Calendar.binsh toString rows = Some bs /\ length bs = 10%nat)
  /\ exists b, Calendar.bins toString rows = Some b
       /\ forall k j, b !! k = Some j -> (0 <= j <= 9)%nat.
Proof.
  split.
  - destruct (binsh_spec toString rows) as (bs & Hbs & Hl & _). eauto.
  - destruct (bins_spec toString rows) as (b & Hb & Hspec).
    exists b. split; [exact Hb |]. intros k j Hk.
    apply Hspec in Hk as (t & _ & _ & Hsplit & _). lia.
Qed.

Lemma bin_index_range_witness :
  exists b, Calendar.bins Sample.toString Sample.three_days = Some b
    /\ b !! "2020-01-02" = Some 9%nat /\ (0 <= 9 <= 9)%nat.
Proof.
  destruct (proj2 (bin_index_range Sample.toString Sample.three_days))
    as (b & Hb & H).
  exists b. split; [exact Hb |].
  assert (Hk : b !! "2020-01-02" = Some 9%nat).
  { vm_compute in Hb. injection Hb as <-. vm_compute. reflexivity. }
  split; [exact Hk | exact (H _ _ Hk)].
Defined.

(** C8, bin monotonicity: of two aggregated entries of one rendering, the
    one with the smaller total is never assigned a higher bin. *)
Theorem bin_monotonicity
  (toString : Calendar.Moment -> string) (rows : list Calendar.Row)
  (k1 k2 : string) (t1 t2 : Q) :
  Js.get k1 (Calendar.dates toString rows) = Some t1 ->
  Js.get k2 (Calendar.dates toString rows) = Some t2 ->
  (t1 < t2)%Q ->
  exists b, Calendar.bins toString rows = Some b
    /\ forall i1 i2, b !! k1 = Some i1 -> b !! k2 = Some i2 -> (i1 <= i2)%nat.
Proof.
  intros Hget1 Hget2 Hlt.
  destruct (bins_spec toString rows) as (b & Hb & Hspec).
  exists b. split; [exact Hb |]. intros i1 i2 H1 H2.
  apply Hspec in H1 as (t1' & Hget1' & _ & Hs1).
  apply Hspec in H2 as (t2' & Hget2' & _ & Hs2).
  assert (t1' = t1) as -> by congruence.
  assert (t2' = t2) as -> by congruence.
  pose proof (splits_mono _ _ _ _ _ _ _ Hs1 Hs2 Hlt). lia.
Qed.

Lemma bin_monotonicity_witness :
  exists b, Calendar.bins Sample.toString Sample.three_days = Some b
    /\ b !! "2020-01-01" = Some 3%nat /\ b !! "2020-01-03" = Some 6%nat
    /\ (3 <= 6)%nat.
Proof.
  destruct (bin_monotonicity Sample.toString Sample.three_days
              "2020-01-01" "2020-01-03" 5 10)
    as (b & Hb & H); [reflexivity | reflexivity | reflexivity |].
  exists b. split; [exact Hb |].
  assert (Hk : b !! "2020-01-01" = Some 3%nat /\ b !! "2020-01-03" = Some 6%nat).
  { vm_compute in Hb. injection Hb as <-. vm_compute. split; reflexivity. }
  destruct Hk as [Hk1 Hk2].
  split; [exact Hk1 |]. split; [exact Hk2 | exact (H _ _ Hk1 Hk2)].
Defined.

(** C1, bin coverage, at two rows of the same day with metric 5: the range
    is [[0, 5]], the one aggregated entry has total 10, and the assignment
    is empty, so the entry has no bin. *)
Theorem same_day_twice_has_no_bin (toString : Calendar.Moment -> string) :
  let key := toString (Calendar.moment (Js.Str "2020-05-05")) in
  Calendar.min Sample.same_day_twice = 0%Q
  /\ Calendar.max Sample.same_day_twice = 5%Q
  /\ Js.entries (Calendar.dates toString Sample.same_day_twice) = [(key, 10%Q)]
  /\ Calendar.bins toString Sample.same_day_twice = Some ∅.
Proof.
  intros key.
  assert (Hd : Calendar.dates toString Sample.same_day_twice = [(key, 10%Q)]).
  { unfold Calendar.dates, Sample.same_day_twice, Sample.row; simpl.
    rewrite !dates_step_set; simpl. fold key.
    rewrite String.eqb_refl. reflexivity. }
  split; [reflexivity |]. split; [reflexivity |]. split; [exact Hd |].
  unfold Calendar.bins, Calendar.binsh. rewrite Hd. reflexivity.
Qed.




(** C5, equal metrics as the code has it: when every row of a non-empty
    sequence carries the same metric [v], every index of the assignment is
    9 when [v] is not negative and 0 when it is negative, and every
    aggregated entry whose total is [v] is assigned that index. *)
Theorem equal_metrics_bin
  (toString : Calendar.Moment -> string) (rows : list Calendar.Row) (v : Q) :
  rows <> [] ->
  Forall (fun row => (Calendar.metricValue row == v)%Q) rows ->
  exists b, Calendar.bins toString rows = Some b
    /\ (forall k j, b !! k = Some j ->
          j = if Qle_bool 0 v then 9%nat else 0%nat)
    /\ (forall k t, Js.get k (Calendar.dates toString rows) = Some t ->
          (t == v)%Q ->
          b !! k = Some (if Qle_bool 0 v then 9%nat else 0%nat)).
Proof.
  intros Hne Hall.
  destruct (bins_spec toString rows) as (b & Hb & Hspec).
  exists b. split; [exact Hb |].
  pose proof (Calendar_range := conj (min_spec rows) (max_spec rows)).
  destruct Calendar_range as [(Hmin0 & _) (Hmax0 & _)].
  destruct (Qle_bool 0 v) eqn:E.
  - apply Qle_bool_iff in E.
    pose proof (max_equal_metrics rows v Hne Hall E) as Hmax.
    split.
    + intros k j Hk. apply Hspec in Hk as (t & Hget & [Hlo Hhi] & Hsplit).
      destruct (dates_equal_metrics toString v rows k t Hall Hget) as [Hge _].
      specialize (Hge E).
      assert (Ht : (t == Calendar.max rows)%Q) by lra.
      pose proof (splits_unique _ _ _ _ _ _ Hsplit (splits_at_max rows t Ht)).
      lia.
    + intros k t Hget Ht. apply Hspec. exists t.
      split; [exact Hget |]. split; [split; lra |].
      apply splits_at_max. lra.
  - assert (Hv : (v < 0)%Q).
    { destruct (Qlt_le_dec v 0) as [H | H]; [exact H |].
      apply Qle_bool_iff in H. congruence. }
    pose proof (min_equal_metrics rows v Hne Hall ltac:(lra)) as Hmin.
    assert (Hstrict : (Calendar.min rows < Calendar.max rows)%Q) by lra.
    pose proof (threshold_0 rows) as H0.
    pose proof (threshold_strict rows 0 1 Hstrict ltac:(lia)) as H1.
    split.
    + intros k j Hk. apply Hspec in Hk as (t & Hget & [Hlo Hhi] & Hsplit).
      destruct (dates_equal_metrics toString v rows k t Hall Hget) as [_ Hle].
      specialize (Hle ltac:(lra)).
      assert (Hs : splits (thresholds rows) t 1 10 1).
      { apply splits_half_open; [lia | lra | lra]. }
      pose proof (splits_unique _ _ _ _ _ _ Hsplit Hs). lia.
    + intros k t Hget Ht. apply Hspec. exists t.
      split; [exact Hget |]. split; [split; lra |].
      apply splits_half_open; [lia | lra | lra].
Qed.

Lemma equal_metrics_bin_witness :
  exists b, Calendar.bins Sample.toString Sample.equal_metrics = Some b
    /\ b !! "2020-05-06" = Some 9%nat.
Proof.
  destruct (equal_metrics_bin Sample.toString Sample.equal_metrics 3)
    as (b & Hb & _ & H); [discriminate | repeat constructor |].
  exists b. split; [exact Hb |].
  apply (H "2020-05-06" 3%Q); reflexivity.
Defined.

(** C5 as stated fails on the rows (2020-05-05, 3), (2020-05-06, 3): all
    metrics are equal, the range is [[0, 3]], and both entries are assigned
    bin 9, not bin 0. *)
Lemma equal_metrics_in_last_bin :
  Forall (fun row => (Calendar.metricValue row == 3)%Q) Sample.equal_metrics
  /\ exists b, Calendar.bins Sample.toString Sample.equal_metrics = Some b
       /\ b !! "2020-05-05" = Some 9%nat
       /\ b !! "2020-05-06" = Some 9%nat
       /\ b !! "2020-05-05" <> Some 0%nat.
Proof.
  split; [repeat constructor |].
  eexists. split; [vm_compute; reflexivity |].
  repeat split; try reflexivity. vm_compute. discriminate.
Qed.

(** C6, the single row (2020-05-05, 7) as the code has it: the range is
    [[0, 7]], the one aggregated entry has the total 7, the upper end of
    the range, and the assignment maps its key, the string of the moment of
    the date, to 9. *)
Theorem single_row_assignment (toString : Calendar.Moment -> string) :
  Calendar.bins toString Sample.one_day
  = Some {[ toString (Calendar.moment (Js.Str "2020-05-05")) := 9%nat ]}.
Proof.
  unfold Calendar.bins, Calendar.binsh.
  assert (Hd : Calendar.dates toString Sample.one_day
               = [(toString (Calendar.moment (Js.Str "2020-05-05")), 7%Q)]).
  { unfold Calendar.dates, Sample.one_day, Sample.row; simpl.
    rewrite dates_step_set. reflexivity. }
  rewrite Hd. simpl. reflexivity.
Qed.

(** C6 as stated fails even with a formatter that gives the date string
    back as the key: the assignment is not the one that maps 2020-05-05
    to 0. *)
Lemma single_row_not_in_bin_0 :
  Calendar.bins Sample.toString Sample.one_day
  <> Some {[ "2020-05-05" := 0%nat ]}.
Proof.
  intros H.
  apply (f_equal (fun r : option (gmap string nat) =>
                    r ≫= fun m => m !! "2020-05-05")) in H.
  vm_compute in H. discriminate.
Qed.


(** * Further properties of the component *)

(** ** The aggregated entries, key by key *)

Section AggregationByKey.
Import Calendar.
Variable toString : Moment -> string.
Local Open Scope Q_scope.

Lemma has_set (y k : string) (v : Q) (o : Js.object Q) :
  Js.has y (Js.set k v o) = Js.has y o || String.eqb y k.
Proof.
  induction o as [| [k' v'] o IH]; simpl.
  - destruct (String.eqb y k); reflexivity.
  - destruct (String.eqb_spec k k') as [-> | Hne]; simpl.
    + destruct (String.eqb y k'); simpl; rewrite ?orb_false_r; reflexivity.
    + rewrite IH. destruct (String.eqb y k'); reflexivity.
Qed.

Lemma has_dates_step (y : string) (o : Js.object Q) (row : Row) :
  Js.has y (dates_step toString o row)
  = Js.has y o || String.eqb y (key_of toString row).
Proof. rewrite dates_step_set. apply has_set. Qed.

Lemma keys_dates_step (o : Js.object Q) (row : Row) :
  (dates_step toString o row).*1
  = o.*1 ++ (if Js.has (key_of toString row) o then [] else [key_of toString row]).
Proof.
  rewrite dates_step_set, keys_set. fold (key_of toString row).
  destruct (Js.has _ o); [rewrite app_nil_r |]; reflexivity.
Qed.

Lemma get_dates_step (k : string) (o : Js.object Q) (row : Row) :
  Js.get k (dates_step toString o row)
  = if String.eqb (key_of toString row) k
    then Some (default 0 (Js.get k o) + metricValue row)
    else Js.get k o.
Proof.
  rewrite dates_step_set. fold (key_of toString row).
  destruct (String.eqb_spec (key_of toString row) k) as [<- | Hne].
  - apply get_set_eq.
  - apply get_set_ne. congruence.
Qed.

Lemma has_fold (k : string) (rows : list Row) (o : Js.object Q) :
  Js.has k (fold_left (dates_step toString) rows o)
  = Js.has k o || existsb (fun row => String.eqb (key_of toString row) k) rows.
Proof.
  revert o. induction rows as [| row rows IH]; intros o; simpl.
  - rewrite orb_false_r. reflexivity.
  - rewrite IH, has_dates_step, (String.eqb_sym k). rewrite orb_assoc. reflexivity.
Qed.

Lemma get_fold (k : string) (rows : list Row) (o : Js.object Q) :
  default 0 (Js.get k (fold_left (dates_step toString) rows o))
  == default 0 (Js.get k o) + metric_sum (rows_of_key toString k rows).
Proof.
  revert o. induction rows as [| row rows IH]; intros o; simpl.
  - lra.
  - rewrite IH, get_dates_step.
    destruct (String.eqb (key_of toString row) k); simpl; lra.
Qed.

Lemma filter_filter_string (p q : string -> bool) (l : list string) :
  List.filter p (List.filter q l) = List.filter (fun y => q y && p y) l.
Proof.
  induction l as [| x l IH]; simpl; [reflexivity |].
  destruct (q x); simpl; [destruct (p x) |]; rewrite IH; reflexivity.
Qed.

Lemma keys_fold (rows : list Row) (o : Js.object Q) :
  (fold_left (dates_step toString) rows o).*1
  = o.*1 ++ List.filter (fun y => negb (Js.has y o))
               (first_occurrences (List.map (key_of toString) rows)).
Proof.
  revert o. induction rows as [| row rows IH]; intros o; simpl.
  - rewrite app_nil_r. reflexivity.
  - rewrite IH, keys_dates_step.
    set (key := key_of toString row).
    set (rest := first_occurrences _).
    assert (Hf : List.filter (fun y => negb (Js.has y (dates_step toString o row))) rest
                 = List.filter (fun y => negb (Js.has y o))
                     (List.filter (fun y => negb (String.eqb y key)) rest)).
    { rewrite filter_filter_string. apply List.filter_ext. intros y.
      rewrite has_dates_step. fold key.
      destruct (Js.has y o), (String.eqb y key); reflexivity. }
    rewrite Hf. destruct (Js.has key o); simpl.
    + rewrite app_nil_r. reflexivity.
    + rewrite <- app_assoc. reflexivity.
Qed.
End AggregationByKey.

(** X1: the aggregation keeps one entry per distinct date: no key occurs
    twice, and a string is a key exactly when some row is filed under it. *)
Theorem dates_keys
  (toString : Calendar.Moment -> string) (rows : list Calendar.Row) :
  NoDup (Js.entries (Calendar.dates toString rows)).*1
  /\ forall k, k ∈ (Js.entries (Calendar.dates toString rows)).*1
               <-> exists row, row ∈ rows /\ key_of toString row = k.
Proof.
  split; [apply dates_NoDup |]. intros k. unfold Js.entries.
  rewrite <- has_elem_of. unfold Calendar.dates. rewrite has_fold. simpl.
  rewrite existsb_exists. split.
  - intros (row & Hin & Heq). exists row. split.
    + apply list_elem_of_In. exact Hin.
    + apply String.eqb_eq. exact Heq.
  - intros (row & Hin & Heq). exists row. split.
    + apply list_elem_of_In. exact Hin.
    + apply String.eqb_eq. exact Heq.
Qed.



(** X3: the aggregated entries are enumerated in the order in which their
    dates first occur in the rows. *)
Theorem dates_insertion_order
  (toString : Calendar.Moment -> string) (rows : list Calendar.Row) :
  (Js.entries (Calendar.dates toString rows)).*1
  = first_occurrences (List.map (key_of toString) rows).
Proof.
  unfold Js.entries, Calendar.dates. rewrite keys_fold. simpl.
  induction (first_occurrences _) as [| x l IH]; simpl; [reflexivity |].
  f_equal. exact IH.
Qed.

(** ** The histogram and the assignment as a whole *)

Section Partition.
Context {A : Type}.
Variable valuer : A -> Q.
Variable range : Q * Q.

Lemma concat_replicate_nil (m : nat) : concat (replicate m ([] : list A)) = [].
Proof. induction m as [| m IH]; simpl; [reflexivity | exact IH]. Qed.

Lemma concat_insert_push (bins : list (list A)) (i : nat) (bin : list A) (d : A) :
  bins !! i = Some bin ->
  concat (<[i := bin ++ [d]]> bins) ≡ₚ d :: concat bins.
Proof.
  revert i. induction bins as [| b rest IH]; intros i Hi; [inversion Hi |].
  destruct i as [| i]; simpl in *.
  - injection Hi as ->. rewrite <- app_assoc. simpl.
    symmetry. apply Permutation_middle.
  - rewrite (IH i Hi). symmetry. apply Permutation_middle.
Qed.

(** The filling loop moves every value of the range into the bins, once,
    and nothing else. *)
Lemma fill_concat (th : list Q) (m : nat) (data : list A)
  (bins bs : list (list A)) :
  d3.fill valuer range th m data bins = Some bs ->
  concat bs
  ≡ₚ concat bins
     ++ List.filter
          (fun d => Qle_bool (fst range) (valuer d) && Qle_bool (valuer d) (snd range))
          data.
Proof.
  revert bins. induction data as [| d data IH]; intros bins; simpl.
  - intros [= ->]. rewrite app_nil_r. reflexivity.
  - destruct (Qle_bool (fst range) (valuer d) && Qle_bool (valuer d) (snd range)).
    + destruct (d3.bisect th (valuer d) 1 m) as [r |]; [| discriminate].
      destruct (bins !! (r - 1)%nat) as [bin |] eqn:Hbin; [| discriminate].
      intros H. rewrite (IH _ H), (concat_insert_push _ _ _ _ Hbin).
      simpl. apply Permutation_middle.
    + apply IH.
Qed.
End Partition.

Section WholeAssignment.
Import Calendar.
Variable toString : Moment -> string.
Local Open Scope Q_scope.

Lemma splits_Qeq (a : list Q) (x y : Q) (lo hi r : nat) :
  x == y -> splits a x lo hi r -> splits a y lo hi r.
Proof.
  intros Hxy (Hr & Hb & Ha). split; [exact Hr |]. split; intros j Hj.
  - specialize (Hb j Hj). lra.
  - specialize (Ha j Hj). lra.
Qed.

Lemma rows_of_key_nil (k : string) (rows : list Row) :
  (forall row, row ∈ rows -> key_of toString row <> k) ->
  rows_of_key toString k rows = [].
Proof.
  induction rows as [| row rows IH]; intros H; simpl; [reflexivity |].
  destruct (String.eqb_spec (key_of toString row) k) as [Heq | _].
  - exfalso. exact (H row ltac:(left) Heq).
  - apply IH. intros row' Hin. apply H. right. exact Hin.
Qed.

(** A row whose date no other row shares is alone under its key. *)
Lemma metric_sum_single (rows : list Row) (row : Row) :
  NoDup (List.map (key_of toString) rows) -> row ∈ rows ->
  metric_sum (rows_of_key toString (key_of toString row) rows)
  == metricValue row.
Proof.
  induction rows as [| r rows IH]; intros Hnd Hin; [inversion Hin |].
  simpl in Hnd. apply NoDup_cons in Hnd as [Hr Hnd].
  apply elem_of_cons in Hin as [-> | Hin]; simpl.
  - rewrite String.eqb_refl. simpl. rewrite rows_of_key_nil; [simpl; lra |].
    intros row' Hin' Heq. apply Hr. rewrite <- Heq.
    apply list_elem_of_In, in_map, list_elem_of_In. exact Hin'.
  - destruct (String.eqb_spec (key_of toString r) (key_of toString row)) as [Heq | _].
    + exfalso. apply Hr. rewrite Heq.
      apply list_elem_of_In, in_map, list_elem_of_In. exact Hin.
    + apply IH; assumption.
Qed.

(** A row always leaves an entry under its key. *)
Lemma dates_get_of_row (rows : list Row) (row : Row) :
  row ∈ rows ->
  exists t, Js.get (key_of toString row) (dates toString rows) = Some t.
Proof.
  intros Hin. apply has_get. unfold dates. rewrite has_fold. simpl.
  apply existsb_exists. exists row. split.
  - apply list_elem_of_In. exact Hin.
  - apply String.eqb_refl.
Qed.





Lemma has_dates (rows : list Row) (k : string) :
  Js.has k (dates toString rows) = true
  <-> exists row, row ∈ rows /\ key_of toString row = k.
Proof.
  unfold dates. rewrite has_fold. simpl. rewrite existsb_exists.
  split; intros (row & Hin & Heq); exists row;
    (split; [apply list_elem_of_In; exact Hin | apply String.eqb_eq; exact Heq]).
Qed.

End WholeAssignment.

(** X4: the ten bins of the histogram together hold the aggregated entries
    whose total lies in [[min, max]], each of them once, and nothing else. *)
Theorem binsh_partition
  (toString : Calendar.Moment -> string) (rows : list Calendar.Row) :
  exists bs, Calendar.binsh toString rows = Some bs
    /\ concat bs
       ≡ₚ List.filter (in_range rows)
            (Js.entries (Calendar.dates toString rows)).
Proof.
  destruct (binsh_spec toString rows) as (bs & Hbs & _).
  exists bs. split; [exact Hbs |].
  unfold Calendar.binsh, d3.layout_histogram in Hbs.
  rewrite length_layout_histogramBinFixed in Hbs. simpl in Hbs.
  apply fill_concat in Hbs. rewrite Hbs. reflexivity.
Qed.

(** X5: the assignment has a key exactly for the aggregated entries whose
    total lies in [[min, max]]; it never holds a key that is not the date
    of some row. *)
Theorem bins_domain
  (toString : Calendar.Moment -> string) (rows : list Calendar.Row) :
  exists b, Calendar.bins toString rows = Some b
    /\ (forall k, is_Some (b !! k)
          <-> exists t, Js.get k (Calendar.dates toString rows) = Some t
                /\ (Calendar.min rows <= t)%Q /\ (t <= Calendar.max rows)%Q)
    /\ (forall k, is_Some (b !! k) ->
          exists row, row ∈ rows /\ key_of toString row = k).
Proof.
  destruct (bins_spec toString rows) as (b & Hb & Hspec).
  exists b. split; [exact Hb |].
  assert (Hdom : forall k, is_Some (b !! k)
            <-> exists t, Js.get k (Calendar.dates toString rows) = Some t
                  /\ (Calendar.min rows <= t)%Q /\ (t <= Calendar.max rows)%Q).
  { intros k. split.
    - intros [j Hj]. apply Hspec in Hj as (t & Hget & [Hlo Hhi] & _). eauto.
    - intros (t & Hget & Hlo & Hhi).
      destruct (bisect_thresholds rows t) as (r & _ & Hsplit).
      exists (r - 1)%nat. apply Hspec. exists t.
      split; [exact Hget |]. split; [split; assumption |].
      destruct Hsplit as (Hr & H). replace (S (r - 1)) with r by lia.
      split; [exact Hr | exact H]. }
  split; [exact Hdom |].
  intros k Hk. apply Hdom in Hk as (t & Hget & _).
  apply has_dates. apply has_elem_of. apply get_elem_of in Hget.
  apply (list_elem_of_fmap_2 fst) in Hget. exact Hget.
Qed.

Lemma bins_domain_witness :
  exists b, Calendar.bins Sample.toString Sample.three_days = Some b
    /\ is_Some (b !! "2020-01-03")
    /\ exists row, row ∈ Sample.three_days
                   /\ key_of Sample.toString row = "2020-01-03".
Proof.
  destruct (bins_domain Sample.toString Sample.three_days) as (b & Hb & _ & H).
  exists b. split; [exact Hb |].
  assert (Hk : is_Some (b !! "2020-01-03")).
  { vm_compute in Hb. injection Hb as <-. vm_compute. eauto. }
  split; [exact Hk | exact (H _ Hk)].
Defined.

(** X6: when no two rows share a date, every row gets a bin: the total of
    its entry is its own metric, which lies in [[min, max]]. *)
Theorem distinct_dates_all_binned
  (toString : Calendar.Moment -> string) (rows : list Calendar.Row) :
  NoDup (List.map (key_of toString) rows) ->
  exists b, Calendar.bins toString rows = Some b
    /\ forall row, row ∈ rows -> is_Some (b !! key_of toString row).
Proof.
  intros Hnd.
  destruct (bins_spec toString rows) as (b & Hb & Hspec).
  exists b. split; [exact Hb |]. intros row Hin.
  destruct (dates_get_of_row toString rows row Hin) as [t Hget].
  assert (Ht : (t == Calendar.metricValue row)%Q).
  { pose proof (get_fold toString (key_of toString row) rows []) as H.
    fold (Calendar.dates toString rows) in H. rewrite Hget in H. simpl in H.
    pose proof (metric_sum_single toString rows row Hnd Hin). lra. }
  destruct (min_spec rows) as (_ & Hlb & _).
  destruct (max_spec rows) as (_ & Hub & _).
  specialize (Hlb row Hin). specialize (Hub row Hin).
  destruct (bisect_thresholds rows t) as (r & _ & Hsplit).
  exists (r - 1)%nat. apply Hspec. exists t.
  split; [exact Hget |]. split; [split; lra |].
  destruct Hsplit as (Hr & H). replace (S (r - 1)) with r by lia.
  split; [exact Hr | exact H].
Qed.

Lemma distinct_dates_all_binned_witness :
  exists b, Calendar.bins Sample.toString Sample.three_days = Some b
    /\ is_Some (b !! "2020-01-02").
Proof.
  destruct (distinct_dates_all_binned Sample.toString Sample.three_days)
    as (b & Hb & H).
  { apply (bool_decide_unpack (NoDup _)). vm_compute. reflexivity. }
  exists b. split; [exact Hb |].
  apply (H (Sample.row "2020-01-02" 15)). right. left.
Defined.

(** X7: the bin of an entry depends on its total alone: two aggregated
    entries with equal totals are assigned the same bin, or are both left
    out. *)
Theorem equal_totals_same_bin
  (toString : Calendar.Moment -> string) (rows : list Calendar.Row)
  (k1 k2 : string) (t1 t2 : Q) :
  Js.get k1 (Calendar.dates toString rows) = Some t1 ->
  Js.get k2 (Calendar.dates toString rows) = Some t2 ->
  (t1 == t2)%Q ->
  exists b, Calendar.bins toString rows = Some b /\ b !! k1 = b !! k2.
Proof.
  intros Hget1 Hget2 Ht.
  destruct (bins_spec toString rows) as (b & Hb & Hspec).
  exists b. split; [exact Hb |].
  assert (H : forall j, b !! k1 = Some j <-> b !! k2 = Some j).
  { intros j. rewrite !Hspec. split.
    - intros (t & Hget & [Hlo Hhi] & Hsplit).
      assert (t = t1) as -> by congruence.
      exists t2. split; [exact Hget2 |]. split; [split; lra |].
      exact (splits_Qeq _ _ _ _ _ _ Ht Hsplit).
    - intros (t & Hget & [Hlo Hhi] & Hsplit).
      assert (t = t2) as -> by congruence.
      exists t1. split; [exact Hget1 |]. split; [split; lra |].
      apply (splits_Qeq _ t2); [symmetry; exact Ht | exact Hsplit]. }
  apply option_eq. exact H.
Qed.

Lemma equal_totals_same_bin_witness :
  exists b, Calendar.bins Sample.toString Sample.equal_metrics = Some b
    /\ b !! "2020-05-05" = b !! "2020-05-06".
Proof.
  apply (equal_totals_same_bin Sample.toString Sample.equal_metrics
           "2020-05-05" "2020-05-06" 3 3); reflexivity.
Defined.



(** ** The date range, by kind of cell *)

Section StringOrder.

Lemma ascii_compare_refl (x : Ascii.ascii) : Ascii.compare x x = Eq.
Proof. unfold Ascii.compare. apply N.compare_refl. Qed.

Lemma string_compare_refl (s : string) : String.compare s s = Eq.
Proof.
  induction s as [| x s IH]; simpl; [reflexivity |].
  rewrite ascii_compare_refl. exact IH.
Qed.

Lemma string_compare_lt_trans (a b c : string) :
  String.compare a b = Lt -> String.compare b c = Lt -> String.compare a c = Lt.
Proof.
  revert b c. induction a as [| x a IH]; intros [| y b] [| z c]; simpl;
    try discriminate; try reflexivity.
  destruct (Ascii.compare x y) eqn:Exy; destruct (Ascii.compare y z) eqn:Eyz;
    try discriminate.
  - apply Ascii.compare_eq_iff in Exy as ->.
    apply Ascii.compare_eq_iff in Eyz as ->.
    rewrite ascii_compare_refl. apply IH.
  - apply Ascii.compare_eq_iff in Exy as ->. rewrite Eyz. reflexivity.
  - apply Ascii.compare_eq_iff in Eyz as <-. rewrite Exy. reflexivity.
  - intros _ _. unfold Ascii.compare in *.
    apply N.compare_lt_iff in Exy. apply N.compare_lt_iff in Eyz.
    assert (H : (Ascii.N_of_ascii x ?= Ascii.N_of_ascii z)%N = Lt)
      by (apply N.compare_lt_iff; eapply N.lt_trans; eassumption).
    rewrite H. reflexivity.
Qed.

Lemma string_leb_refl (s : string) : String.leb s s = true.
Proof. unfold String.leb. rewrite string_compare_refl. reflexivity. Qed.

Lemma string_leb_trans (a b c : string) :
  String.leb a b = true -> String.leb b c = true -> String.leb a c = true.
Proof.
  unfold String.leb.
  destruct (String.compare a b) eqn:Eab; [| | discriminate];
    destruct (String.compare b c) eqn:Ebc; try discriminate; intros _ _.
  - apply String.compare_eq_iff in Eab as ->. rewrite Ebc. reflexivity.
  - apply String.compare_eq_iff in Eab as ->. rewrite Ebc. reflexivity.
  - apply String.compare_eq_iff in Ebc as <-. rewrite Eab. reflexivity.
  - rewrite (string_compare_lt_trans _ _ _ Eab Ebc). reflexivity.
Qed.

Lemma string_ltb_leb (a b : string) :
  String.ltb a b = true -> String.leb a b = true.
Proof.
  unfold String.ltb, String.leb. destruct (String.compare a b); congruence.
Qed.

Lemma string_ltb_false_leb (a b : string) :
  String.ltb a b = false -> String.leb b a = true.
Proof.
  unfold String.ltb, String.leb. rewrite (String.compare_antisym b a).
  destruct (String.compare a b); simpl; congruence.
Qed.
End StringOrder.

Section DateRangeOfStrings.
Import Calendar.
Variable ToNumber : string -> option Q.

Lemma minDate_fold_strings (rows : list Row) (acc : string) :
  Forall (date_string ToNumber) rows ->
  exists lo,
    fold_left
      (fun min row =>
         if Js.lt ToNumber min (dimensionValue row) then min
         else dimensionValue row)
      rows (Js.Str acc) = Js.Str lo
    /\ String.leb lo acc = true
    /\ (forall row s, row ∈ rows -> dimensionValue row = Js.Str s ->
                      String.leb lo s = true)
    /\ (lo = acc \/ exists row, row ∈ rows /\ dimensionValue row = Js.Str lo).
Proof.
  intros Hstr. revert acc.
  induction Hstr as [| row rows (s & Hs & _) _ IH]; intros acc; cbn [fold_left].
  - exists acc. split; [reflexivity |]. split; [apply string_leb_refl |].
    split; [intros row s H; inversion H | left; reflexivity].
  - rewrite Hs. cbn [Js.lt]. destruct (String.ltb acc s) eqn:E.
    + destruct (IH acc) as (lo & Hfold & Hle & Hall & Hatt).
      exists lo. split; [exact Hfold |]. split; [exact Hle |]. split.
      * intros row' s' Hin Hs'. apply elem_of_cons in Hin as [-> | Hin];
          [| eauto]. assert (s' = s) as -> by congruence.
        apply (string_leb_trans _ acc); [exact Hle |].
        apply string_ltb_leb. exact E.
      * destruct Hatt as [-> | (row' & Hin & Hatt)]; [left; reflexivity |].
        right. exists row'. split; [right; exact Hin | exact Hatt].
    + destruct (IH s) as (lo & Hfold & Hle & Hall & Hatt).
      exists lo. split; [exact Hfold |]. split.
      { apply (string_leb_trans _ s); [exact Hle |].
        apply string_ltb_false_leb. exact E. }
      split.
      * intros row' s' Hin Hs'. apply elem_of_cons in Hin as [-> | Hin];
          [| eauto]. assert (s' = s) as -> by congruence. exact Hle.
      * right. destruct Hatt as [-> | (row' & Hin & Hatt)].
        -- exists row. split; [left | exact Hs].
        -- exists row'. split; [right; exact Hin | exact Hatt].
Qed.

Lemma maxDate_fold_strings (rows : list Row) (acc : string) :
  Forall (date_string ToNumber) rows ->
  exists hi,
    fold_left
      (fun max row =>
         if Js.gt ToNumber max (dimensionValue row) then max
         else dimensionValue row)
      rows (Js.Str acc) = Js.Str hi
    /\ String.leb acc hi = true
    /\ (forall row s, row ∈ rows -> dimensionValue row = Js.Str s ->
                      String.leb s hi = true)
    /\ (hi = acc \/ exists row, row ∈ rows /\ dimensionValue row = Js.Str hi).
Proof.
  intros Hstr. revert acc.
  induction Hstr as [| row rows (s & Hs & _) _ IH]; intros acc; cbn [fold_left].
  - exists acc. split; [reflexivity |]. split; [apply string_leb_refl |].
    split; [intros row s H; inversion H | left; reflexivity].
  - rewrite Hs. cbn [Js.gt Js.lt]. destruct (String.ltb s acc) eqn:E.
    + destruct (IH acc) as (hi & Hfold & Hle & Hall & Hatt).
      exists hi. split; [exact Hfold |]. split; [exact Hle |]. split.
      * intros row' s' Hin Hs'. apply elem_of_cons in Hin as [-> | Hin];
          [| eauto]. assert (s' = s) as -> by congruence.
        apply (string_leb_trans _ acc); [| exact Hle].
        apply string_ltb_leb. exact E.
      * destruct Hatt as [-> | (row' & Hin & Hatt)]; [left; reflexivity |].
        right. exists row'. split; [right; exact Hin | exact Hatt].
    + destruct (IH s) as (hi & Hfold & Hle & Hall & Hatt).
      exists hi. split; [exact Hfold |]. split.
      { apply (string_leb_trans _ s); [| exact Hle].
        apply string_ltb_false_leb. exact E. }
      split.
      * intros row' s' Hin Hs'. apply elem_of_cons in Hin as [-> | Hin];
          [| eauto]. assert (s' = s) as -> by congruence. exact Hle.
      * right. destruct Hatt as [-> | (row' & Hin & Hatt)].
        -- exists row. split; [left | exact Hs].
        -- exists row'. split; [right; exact Hin | exact Hatt].
Qed.
End DateRangeOfStrings.

(** X9: with numeric dimension cells the seed takes part in the folds:
    [minDate] is the least and [maxDate] the greatest of 0 and the cells,
    so [minDate] is at most 0 and [maxDate] at least 0, and the two
    coincide only when every cell is 0. *)
Theorem dates_of_timestamps
  (ToNumber : string -> option Q) (rows : list Calendar.Row) :
  Forall timestamp rows ->
  exists lo hi,
    Calendar.minDate ToNumber rows = Js.Num lo
    /\ Calendar.maxDate ToNumber rows = Js.Num hi
    /\ (lo <= 0 <= hi)%Z
    /\ (forall row n, row ∈ rows -> Calendar.dimensionValue row = Js.Num n ->
                      (lo <= n <= hi)%Z)
    /\ (lo = 0%Z \/ exists row, row ∈ rows /\ Calendar.dimensionValue row = Js.Num lo)
    /\ (hi = 0%Z \/ exists row, row ∈ rows /\ Calendar.dimensionValue row = Js.Num hi)
    /\ (Calendar.minDate ToNumber rows = Calendar.maxDate ToNumber rows
        <-> Forall (fun row => Calendar.dimensionValue row = Js.Num 0) rows).
Proof.
  intros Hnum.
  pose proof (dates_of_numbers_coincide ToNumber rows Hnum) as Hco.
  unfold Calendar.minDate, Calendar.maxDate in *.
  destruct (minDate_fold_numbers ToNumber rows 0 Hnum) as (lo & Hmin & Hlo & Hlb & Hlatt).
  destruct (maxDate_fold_numbers ToNumber rows 0 Hnum) as (hi & Hmax & Hhi & Hub & Hhatt).
  exists lo, hi. split; [exact Hmin |]. split; [exact Hmax |].
  split; [lia |]. split.
  { intros row n Hin Hn. split; [exact (Hlb row n Hin Hn) | exact (Hub row n Hin Hn)]. }
  split; [exact Hlatt |]. split; [exact Hhatt | exact Hco].
Qed.

Lemma dates_of_timestamps_witness :
  exists lo hi,
    Calendar.minDate Sample.ToNumber Sample.epoch_millis = Js.Num lo
    /\ Calendar.maxDate Sample.ToNumber Sample.epoch_millis = Js.Num hi
    /\ (lo <= 0 <= hi)%Z.
Proof.
  destruct (dates_of_timestamps Sample.ToNumber Sample.epoch_millis)
    as (lo & hi & Hmin & Hmax & Hb & _).
  { repeat constructor; eexists; reflexivity. }
  exists lo, hi. split; [exact Hmin |]. split; [exact Hmax | exact Hb].
Defined.

(** X10: with dimension cells that are strings and not numbers, the seed
    is dropped at the first row: on a non-empty sequence [minDate] is the
    least and [maxDate] the greatest cell in the order of strings, each the
    cell of some row. *)
Theorem dates_of_date_strings
  (ToNumber : string -> option Q) (rows : list Calendar.Row) :
  rows <> [] -> Forall (date_string ToNumber) rows ->
  exists lo hi,
    Calendar.minDate ToNumber rows = Js.Str lo
    /\ Calendar.maxDate ToNumber rows = Js.Str hi
    /\ (exists row, row ∈ rows /\ Calendar.dimensionValue row = Js.Str lo)
    /\ (exists row, row ∈ rows /\ Calendar.dimensionValue row = Js.Str hi)
    /\ (forall row s, row ∈ rows -> Calendar.dimensionValue row = Js.Str s ->
                      String.leb lo s = true /\ String.leb s hi = true).
Proof.
  intros Hne Hstr. destruct rows as [| row rows]; [congruence |].
  apply Forall_cons in Hstr as [(s & Hs & Hnan) Hstr].
  unfold Calendar.minDate, Calendar.maxDate. cbn [fold_left].
  rewrite Hs. cbn [Js.gt Js.lt Js.to_number]. rewrite Hnan.
  destruct (minDate_fold_strings ToNumber rows s Hstr) as (lo & Hmin & Hlo & Hlb & Hlatt).
  destruct (maxDate_fold_strings ToNumber rows s Hstr) as (hi & Hmax & Hhi & Hub & Hhatt).
  exists lo, hi. split; [exact Hmin |]. split; [exact Hmax |].
  split; [| split].
  - destruct Hlatt as [-> | (row' & Hin & Hatt)].
    + exists row. split; [left | exact Hs].
    + exists row'. split; [right; exact Hin | exact Hatt].
  - destruct Hhatt as [-> | (row' & Hin & Hatt)].
    + exists row. split; [left | exact Hs].
    + exists row'. split; [right; exact Hin | exact Hatt].
  - intros row' s' Hin Hs'. apply elem_of_cons in Hin as [-> | Hin].
    + assert (s' = s) as -> by congruence. split; assumption.
    + split; [exact (Hlb row' s' Hin Hs') | exact (Hub row' s' Hin Hs')].
Qed.

Lemma dates_of_date_strings_witness :
  exists lo hi,
    Calendar.minDate Sample.ToNumber Sample.three_days = Js.Str lo
    /\ Calendar.maxDate Sample.ToNumber Sample.three_days = Js.Str hi
    /\ String.leb lo "2020-01-02" = true /\ String.leb "2020-01-02" hi = true.
Proof.
  destruct (dates_of_date_strings Sample.ToNumber Sample.three_days)
    as (lo & hi & Hmin & Hmax & _ & _ & H).
  { discriminate. }
  { repeat constructor; eexists; split; reflexivity. }
  exists lo, hi. split; [exact Hmin |]. split; [exact Hmax |].
  apply (H (Sample.row "2020-01-02" 15)); [right; left | reflexivity].
Defined.

(** ** The derived settings *)

Section DerivedSettings.
Import Calendar.

Lemma findIndex_from_spec {A : Type} (predicate : A -> bool) (array : list A)
  (index : Z) :
  (underscore.findIndex_from predicate array index = (-1)%Z
   /\ forall x, x ∈ array -> predicate x = false)
  \/ exists i x,
       underscore.findIndex_from predicate array index = (index + Z.of_nat i)%Z
       /\ array !! i = Some x /\ predicate x = true
       /\ forall j y, (j < i)%nat -> array !! j = Some y -> predicate y = false.
Proof.
  revert index. induction array as [| a array IH]; intros index; simpl.
  - left. split; [reflexivity |]. intros x H. inversion H.
  - destruct (predicate a) eqn:E.
    + right. exists 0%nat, a. split; [lia |]. split; [reflexivity |].
      split; [exact E |]. intros j y Hj. lia.
    + destruct (IH (index + 1)%Z) as [[Hr Hall] | (i & x & Hr & Hx & Hp & Hbefore)].
      * left. split; [exact Hr |]. intros x Hin.
        apply elem_of_cons in Hin as [-> | Hin]; [exact E | exact (Hall x Hin)].
      * right. exists (S i), x. split; [lia |]. split; [exact Hx |].
        split; [exact Hp |]. intros [| j] y Hj Hy.
        -- injection Hy as <-. exact E.
        -- apply (Hbefore j y); [lia | exact Hy].
Qed.

Lemma name_is_true (col : Col) (setting : option string) :
  name_is col setting = true <-> Some (name col) = setting.
Proof.
  unfold name_is. destruct setting as [s |].
  - rewrite String.eqb_eq. split; [intros ->; reflexivity | intros [= ->]; reflexivity].
  - split; discriminate.
Qed.

Lemma name_is_false (col : Col) (setting : option string) :
  name_is col setting = false <-> Some (name col) <> setting.
Proof.
  rewrite <- name_is_true. destruct (name_is col setting); split; congruence.
Qed.

Lemma findIndex_first_column_named (cols : list Col) (setting : option string) :
  first_column_named cols setting
    (underscore.findIndex cols (fun col => name_is col setting)).
Proof.
  unfold underscore.findIndex.
  destruct (findIndex_from_spec (fun col => name_is col setting) cols 0)
    as [[Hr Hall] | (i & x & Hr & Hx & Hp & Hbefore)]; rewrite Hr.
  - left. split; [reflexivity |]. intros col Hin.
    apply name_is_false. exact (Hall col Hin).
  - right. replace (0 + Z.of_nat i)%Z with (Z.of_nat i) by lia.
    rewrite Nat2Z.id.
    pose proof (lookup_lt_Some _ _ _ Hx) as Hlt.
    split; [lia |]. split.
    + exists x. split; [exact Hx | apply name_is_true; exact Hp].
    + intros j col Hj Hcol. apply name_is_false. exact (Hbefore j col Hj Hcol).
Qed.
End DerivedSettings.

(** X11: [calendar._metricIndex] and [calendar._dimensionIndex] are -1
    when no column bears the name the setting gives, in particular when
    the setting is absent, and otherwise the position of the first column
    of that name. *)
Theorem column_indices
  (cols : list Calendar.Col) (settings : Calendar.Settings) :
  first_column_named cols (Calendar.calendar_metric settings)
    (Calendar._metricIndex cols settings)
  /\ first_column_named cols (Calendar.calendar_dimension settings)
       (Calendar._dimensionIndex cols settings).
Proof. split; apply findIndex_first_column_named. Qed.

(** X12: [calendar._dimensionValues] is null exactly when no column bears
    the name of the dimension setting; otherwise it has one string per
    row, the string of the cell of the row in the dimension column. *)
Theorem dimensionValues_spec
  (Cell : Type) (String_ : option Cell -> string)
  (cols : list Calendar.Col) (rows : list (list Cell))
  (settings : Calendar.Settings) :
  let dimensionIndex := Calendar._dimensionIndex cols settings in
  let values := Calendar._dimensionValues Cell String_ rows dimensionIndex in
  (values = None
   <-> forall col, col ∈ cols ->
         Some (Calendar.name col) <> Calendar.calendar_dimension settings)
  /\ (forall vs, values = Some vs ->
        length vs = length rows
        /\ forall i row, rows !! i = Some row ->
             vs !! i = Some (String_ (row !! Z.to_nat dimensionIndex))).
Proof.
  intros dimensionIndex values. subst values.
  unfold Calendar._dimensionValues.
  pose proof (findIndex_first_column_named cols
                (Calendar.calendar_dimension settings)) as Hix.
  fold (Calendar._dimensionIndex cols settings) in Hix. fold dimensionIndex in Hix.
  split.
  - destruct Hix as [[Hr Hall] | (Hr & (col & Hcol & Hname) & _)].
    + rewrite Hr. simpl. split; [intros _; exact Hall | reflexivity].
    + destruct (Z.leb_spec 0 dimensionIndex) as [_ | H]; [| lia].
      split; [discriminate |]. intros Hall. exfalso.
      apply (Hall col); [| exact Hname].
      apply list_elem_of_lookup. eauto.
  - intros vs. destruct (0 <=? dimensionIndex)%Z; [| discriminate].
    intros [= <-]. split; [apply length_map |].
    intros i row Hrow.
    change (List.map ?f rows) with (f <$> rows).
    rewrite list_lookup_fmap, Hrow. reflexivity.
Qed.

Lemma dimensionValues_spec_witness :
  Calendar._dimensionValues string Sample.String_ Sample.raw_rows
    (Calendar._dimensionIndex Sample.cols (Sample.settings true))
  = Some ["2020-01-01"; "2020-01-02"]
  /\ length ["2020-01-01"; "2020-01-02"] = length Sample.raw_rows.
Proof.
  split; [reflexivity |].
  apply (proj2 (dimensionValues_spec string Sample.String_ Sample.cols
                  Sample.raw_rows (Sample.settings true))).
  reflexivity.
Defined.

(** X13: [checkRenderable] looks at the settings and never at the columns:
    with a row and two settings that are present it throws nothing, also
    when a setting names no column, and the index derived from that
    setting is then -1. *)
Theorem checkRenderable_ignores_columns
  (cols : list Calendar.Col) (rows : list Calendar.Row)
  (settings : Calendar.Settings) :
  rows <> [] ->
  ~ missing (Calendar.calendar_dimension settings) ->
  ~ missing (Calendar.calendar_metric settings) ->
  Calendar.checkRenderable rows settings = None
  /\ ((forall col, col ∈ cols ->
         Some (Calendar.name col) <> Calendar.calendar_metric settings) ->
      Calendar._metricIndex cols settings = (-1)%Z)
  /\ ((forall col, col ∈ cols ->
         Some (Calendar.name col) <> Calendar.calendar_dimension settings) ->
      Calendar._dimensionIndex cols settings = (-1)%Z).
Proof.
  intros Hne Hd Hm. unfold missing in *. split.
  - unfold Calendar.checkRenderable.
    destruct rows as [| row rows]; [congruence |]. simpl.
    destruct (Calendar.not_ (Calendar.calendar_dimension settings)); [congruence |].
    destruct (Calendar.not_ (Calendar.calendar_metric settings)); [congruence |].
    reflexivity.
  - split; intros Hall.
    + destruct (findIndex_first_column_named cols (Calendar.calendar_metric settings))
        as [[Hr _] | (_ & (col & Hcol & Hname) & _)]; [exact Hr |].
      exfalso. apply (Hall col); [| exact Hname].
      apply list_elem_of_lookup. eauto.
    + destruct (findIndex_first_column_named cols (Calendar.calendar_dimension settings))
        as [[Hr _] | (_ & (col & Hcol & Hname) & _)]; [exact Hr |].
      exfalso. apply (Hall col); [| exact Hname].
      apply list_elem_of_lookup. eauto.
Qed.

Lemma checkRenderable_ignores_columns_witness :
  Calendar.checkRenderable Sample.one_day
    (Calendar.mkSettings (Some "day") (Some "total") true) = None
  /\ Calendar._metricIndex Sample.cols
       (Calendar.mkSettings (Some "day") (Some "total") true) = (-1)%Z.
Proof.
  destruct (checkRenderable_ignores_columns Sample.cols Sample.one_day
              (Calendar.mkSettings (Some "day") (Some "total") true))
    as (Hc & Hm & _); [discriminate | discriminate | discriminate |].
  split; [exact Hc |]. apply Hm.
  intros col Hin. apply (bool_decide_unpack _).
  revert col Hin. apply Forall_forall. repeat constructor.
Defined.

(** ** Sizes *)

Section Sizes.
Import Calendar.
Local Open Scope Q_scope.

Lemma Math_min_spec (a b : Q) :
  Js.Math_min a b <= a /\ Js.Math_min a b <= b
  /\ (Js.Math_min a b = a \/ Js.Math_min a b = b).
Proof.
  unfold Js.Math_min. destruct (Js.Qltb b a) eqn:E.
  - apply Qltb_true in E. repeat split; try lra. right; reflexivity.
  - apply Qltb_false in E. repeat split; try lra. left; reflexivity.
Qed.

Lemma Math_max_spec (a b : Q) :
  a <= Js.Math_max a b /\ b <= Js.Math_max a b
  /\ (Js.Math_max a b = a \/ Js.Math_max a b = b).
Proof.
  unfold Js.Math_max. destruct (Js.Qltb a b) eqn:E.
  - apply Qltb_true in E. repeat split; try lra. right; reflexivity.
  - apply Qltb_false in E. repeat split; try lra. left; reflexivity.
Qed.

Lemma Math_abs_le (x e : Q) :
  Js.Qgtb (Js.Math_abs x) e = false <-> - e <= x /\ x <= e \/ (x < 0 /\ - x <= e) .
Proof.
  unfold Js.Qgtb, Js.Math_abs. rewrite Qltb_false.
  destruct (Js.Qltb x 0) eqn:E.
  - apply Qltb_true in E. split; [intros H; right; split; lra |].
    intros [[H1 H2] | [H1 H2]]; lra.
  - apply Qltb_false in E. split; [intros H; left; split; lra |].
    intros [[H1 H2] | [H1 H2]]; lra.
Qed.

(** The desired font size is its argument brought back between the two
    bounds. *)
Lemma clamp_spec (x : Q) :
  let c := Js.Math_max FONT_SIZE_CENTER_LABEL_MIN
             (Js.Math_min FONT_SIZE_CENTER_LABEL_MAX x) in
  (5 # 10) <= c /\ c <= (7 # 10)
  /\ (x <= (5 # 10) -> c == (5 # 10))
  /\ ((7 # 10) <= x -> c == (7 # 10))
  /\ ((5 # 10) <= x -> x <= (7 # 10) -> c == x).
Proof.
  intros c. subst c.
  destruct (Math_min_spec FONT_SIZE_CENTER_LABEL_MAX x) as (H1 & H2 & H3).
  destruct (Math_max_spec FONT_SIZE_CENTER_LABEL_MIN
              (Js.Math_min FONT_SIZE_CENTER_LABEL_MAX x)) as (H4 & H5 & H6).
  unfold FONT_SIZE_CENTER_LABEL_MIN, FONT_SIZE_CENTER_LABEL_MAX in *.
  revert H1 H2 H3 H4 H5 H6.
  generalize (Js.Math_min (7 # 10) x). intros m.
  generalize (Js.Math_max (5 # 10) m). intros c H1 H2 H3 H4 H5 H6.
  assert (H3' : m == (7 # 10) \/ m == x)
    by (destruct H3 as [-> | ->]; [left | right]; reflexivity).
  assert (H6' : c == (5 # 10) \/ c == m)
    by (destruct H6 as [-> | ->]; [left | right]; reflexivity).
  clear H3 H6.
  repeat split; intros; destruct H3', H6'; lra.
Qed.

Lemma clamp_Qeq (x y : Q) :
  x == y ->
  Js.Math_max FONT_SIZE_CENTER_LABEL_MIN (Js.Math_min FONT_SIZE_CENTER_LABEL_MAX x)
  == Js.Math_max FONT_SIZE_CENTER_LABEL_MIN (Js.Math_min FONT_SIZE_CENTER_LABEL_MAX y).
Proof.
  intros Hxy.
  destruct (clamp_spec x) as (Hx1 & Hx2 & Hx3 & Hx4 & Hx5).
  destruct (clamp_spec y) as (Hy1 & Hy2 & Hy3 & Hy4 & Hy5).
  destruct (Qlt_le_dec x (5 # 10)) as [H | H].
  - rewrite Hx3, Hy3 by lra. reflexivity.
  - destruct (Qlt_le_dec (7 # 10) x) as [H' | H'].
    + rewrite Hx4, Hy4 by lra. reflexivity.
    + rewrite Hx5, Hy5 by lra. exact Hxy.
Qed.
End Sizes.

(** X14: the font size of the label after [_updateLabelSize] is the old
    one or the desired one; the desired one lies between the two bounds
    0.5 and 0.7, and the size the label is left with lies within five per
    cent of them, between 0.475 and 0.735. *)
Theorem label_font_size_bounds (currentWidth currentFontSize : Q) :
  (0 < currentWidth)%Q ->
  let desired := Calendar.desiredFontSize currentWidth currentFontSize in
  let after := Calendar._updateLabelSize currentWidth currentFontSize in
  (Calendar.FONT_SIZE_CENTER_LABEL_MIN <= desired)%Q
  /\ (desired <= Calendar.FONT_SIZE_CENTER_LABEL_MAX)%Q
  /\ (after = currentFontSize \/ after = desired)
  /\ ((475 # 1000) <= after)%Q /\ (after <= (735 # 1000))%Q.
Proof.
  intros Hw desired after. subst after.
  unfold Calendar._updateLabelSize. fold desired.
  destruct (clamp_spec (currentFontSize
                        * (Calendar.INNER_RADIUS * 2 * (95 # 100) / currentWidth))%Q)
    as (Hlo & Hhi & _).
  fold (Calendar.desiredFontSize currentWidth currentFontSize) in Hlo, Hhi.
  fold desired in Hlo, Hhi.
  split; [exact Hlo |]. split; [exact Hhi |].
  destruct (Js.Qgtb _ (5 # 100)) eqn:E.
  - split; [right; reflexivity |]. split; lra.
  - split; [left; reflexivity |].
    assert (Hq : (currentFontSize == currentFontSize / desired * desired)%Q)
      by (field; lra).
    revert E Hq. generalize (currentFontSize / desired)%Q. intros q E Hq.
    apply Math_abs_le in E.
    assert (Hq1 : ((95 # 100) <= q)%Q) by (destruct E as [[? ?] | [? ?]]; lra).
    assert (Hq2 : (q <= (105 # 100))%Q) by (destruct E as [[? ?] | [? ?]]; lra).
    split; nra.
Qed.

Lemma label_font_size_bounds_witness :
  ((475 # 1000) <= Calendar._updateLabelSize 100 (7 # 10))%Q
  /\ (Calendar._updateLabelSize 100 (7 # 10) <= (735 # 1000))%Q.
Proof.
  destruct (label_font_size_bounds 100 (7 # 10)) as (_ & _ & _ & H1 & H2);
    [reflexivity |].
  split; [exact H1 | exact H2].
Defined.

Section LabelSettles.
Import Calendar.
Local Open Scope Q_scope.

Lemma updateLabelSize_keeps (w f : Q) :
  - (5 # 100) <= 1 - f / desiredFontSize w f ->
  1 - f / desiredFontSize w f <= (5 # 100) ->
  _updateLabelSize w f = f.
Proof.
  intros H1 H2. unfold _updateLabelSize.
  destruct (Js.Qgtb _ (5 # 100)) eqn:E; [| reflexivity].
  assert (Hf : Js.Qgtb (Js.Math_abs (1 - f / desiredFontSize w f)) (5 # 100) = false).
  { apply Math_abs_le. left. split; assumption. }
  congruence.
Qed.

Lemma updateLabelSize_cases (w f : Q) :
  (_updateLabelSize w f = f
   /\ - (5 # 100) <= 1 - f / desiredFontSize w f
   /\ 1 - f / desiredFontSize w f <= (5 # 100))
  \/ _updateLabelSize w f = desiredFontSize w f.
Proof.
  unfold _updateLabelSize.
  destruct (Js.Qgtb _ (5 # 100)) eqn:E; [right; reflexivity | left].
  split; [reflexivity |].
  apply Math_abs_le in E. destruct E as [[H1 H2] | [H1 H2]]; split; lra.
Qed.

Lemma desiredFontSize_Qeq (w f w' f' : Q) :
  f * (INNER_RADIUS * 2 * (95 # 100) / w)
  == f' * (INNER_RADIUS * 2 * (95 # 100) / w') ->
  desiredFontSize w f == desiredFontSize w' f'.
Proof. intros H. unfold desiredFontSize. apply clamp_Qeq. exact H. Qed.

Lemma desiredFontSize_bounds (w f : Q) :
  (5 # 10) <= desiredFontSize w f /\ desiredFontSize w f <= (7 # 10).
Proof.
  unfold desiredFontSize.
  destruct (clamp_spec (f * (INNER_RADIUS * 2 * (95 # 100) / w))) as (H1 & H2 & _).
  split; assumption.
Qed.
End LabelSettles.

(** X15: one call settles the label when the width of the text follows
    its font size in proportion: measured again at the size the first call
    left, the label is not resized by a second call. *)
Theorem label_settles (currentWidth currentFontSize nextWidth : Q) :
  (0 < currentWidth)%Q -> (0 < currentFontSize)%Q ->
  (nextWidth * currentFontSize
   == currentWidth * Calendar._updateLabelSize currentWidth currentFontSize)%Q ->
  Calendar._updateLabelSize nextWidth
    (Calendar._updateLabelSize currentWidth currentFontSize)
  = Calendar._updateLabelSize currentWidth currentFontSize.
Proof.
  intros Hw Hf Hnext.
  pose proof (desiredFontSize_bounds currentWidth currentFontSize) as [Hd1 Hd2].
  assert (Hafter : (0 < Calendar._updateLabelSize currentWidth currentFontSize)%Q).
  { destruct (updateLabelSize_cases currentWidth currentFontSize) as [[-> _] | ->]; lra. }
  assert (Hw' : (0 < nextWidth)%Q).
  { destruct (Qlt_le_dec 0 nextWidth) as [H | H]; [exact H | exfalso].
    assert (nextWidth * currentFontSize <= 0)%Q by nra.
    assert (0 < currentWidth * Calendar._updateLabelSize currentWidth currentFontSize)%Q
      by nra.
    lra. }
  assert (Hsame : (Calendar.desiredFontSize nextWidth
                     (Calendar._updateLabelSize currentWidth currentFontSize)
                   == Calendar.desiredFontSize currentWidth currentFontSize)%Q).
  { apply desiredFontSize_Qeq.
    revert Hnext Hafter.
    generalize (Calendar._updateLabelSize currentWidth currentFontSize).
    intros f' Hnext Hafter.
    generalize (Calendar.INNER_RADIUS * 2 * (95 # 100))%Q. intros M.
    assert (H : (f' * (M / nextWidth) - currentFontSize * (M / currentWidth)
                 == M * (currentWidth * f' - nextWidth * currentFontSize)
                    / (nextWidth * currentWidth))%Q) by (field; split; lra).
    assert (H0 : (M * (currentWidth * f' - nextWidth * currentFontSize)
                  / (nextWidth * currentWidth) == 0)%Q).
    { rewrite <- Hnext. field. split; lra. }
    lra. }
  assert (Hbounds :
            (- (5 # 100)
             <= 1 - Calendar._updateLabelSize currentWidth currentFontSize
                    / Calendar.desiredFontSize currentWidth currentFontSize
             /\ 1 - Calendar._updateLabelSize currentWidth currentFontSize
                    / Calendar.desiredFontSize currentWidth currentFontSize
                <= (5 # 100))%Q).
  { destruct (updateLabelSize_cases currentWidth currentFontSize)
      as [(-> & H1 & H2) | ->]; [split; assumption |].
    assert (H : (Calendar.desiredFontSize currentWidth currentFontSize
                 / Calendar.desiredFontSize currentWidth currentFontSize == 1)%Q)
      by (field; lra).
    rewrite H. split; lra. }
  apply updateLabelSize_keeps; rewrite Hsame; apply Hbounds.
Qed.

Lemma label_settles_witness :
  Calendar._updateLabelSize (6327 # 100) (Calendar._updateLabelSize 100 1)
  = Calendar._updateLabelSize 100 1.
Proof.
  apply (label_settles 100 1 (6327 # 100));
    [reflexivity | reflexivity | vm_compute; reflexivity].
Defined.

Section SvgSize.
Import Calendar.
Local Open Scope Q_scope.

End SvgSize.



(** X17: a bin holds only totals of its own interval: an entry assigned
    bin [j] has a total of at least [threshold j], below
    [threshold (j + 1)] unless [j] is the last bin, and at most [max]. *)
Theorem bin_holds_its_interval
  (toString : Calendar.Moment -> string) (rows : list Calendar.Row) :
  exists b, Calendar.bins toString rows = Some b
    /\ forall k j t, b !! k = Some j ->
         Js.get k (Calendar.dates toString rows) = Some t ->
         (threshold rows j <= t)%Q
         /\ ((j < 9)%nat -> (t < threshold rows (S j))%Q)
         /\ (t <= Calendar.max rows)%Q.
Proof.
  destruct (bins_spec toString rows) as (b & Hb & Hspec).
  exists b. split; [exact Hb |]. intros k j t Hk Hget.
  apply Hspec in Hk as (t' & Hget' & [Hlo Hhi] & (Hr & Hbelow & Habove)).
  assert (t' = t) as -> by congruence.
  split; [| split; [| exact Hhi]].
  - destruct j as [| j].
    + pose proof (threshold_0 rows). lra.
    + apply (Hbelow (S j)). lia.
  - intros Hj. apply (Habove (S j)). lia.
Qed.

Lemma bin_holds_its_interval_witness :
  exists b, Calendar.bins Sample.toString Sample.three_days = Some b
    /\ b !! "2020-01-03" = Some 6%nat
    /\ (threshold Sample.three_days 6 <= 10)%Q
    /\ (10 < threshold Sample.three_days 7)%Q.
Proof.
  destruct (bin_holds_its_interval Sample.toString Sample.three_days)
    as (b & Hb & H).
  exists b. split; [exact Hb |].
  assert (Hk : b !! "2020-01-03" = Some 6%nat).
  { vm_compute in Hb. injection Hb as <-. vm_compute. reflexivity. }
  split; [exact Hk |].
  destruct (H "2020-01-03" 6%nat 10%Q Hk) as (H1 & H2 & _); [reflexivity |].
  split; [exact H1 | apply H2; lia].
Defined.
